(** * recurrente-js: webhook verification, dispatch and key-case conversion

    A shallow embedding of [src/api/recurrente-webhooks.ts]: the Svix
    signature check [verifySvixSignature], the handler registry with
    [registerWebhookHandler] and [handleWebhookEvent], and the key
    converters [toSnakeCase] and [toCamelCase], with the properties the
    specification states about them.

    Conventions of the embedding:
    - a JavaScript string is a [string] whose characters are read as code
      units below 256 (Latin-1), which is enough for every key of the
      provider's wire format;
    - a plain object is the list of its own enumerable properties in
      [Object.keys] order, or the finite map of them where the order
      plays no part; an array is a list. Of what an object inherits from
      [Object.prototype] the embedding has the two places where this
      code meets it: the accessor [__proto__], which an assignment on
      the accumulator of [toSnakeCase] can reach, and the members the
      lookup of [handleWebhookEvent] finds;
    - a function that may throw, log or touch ambient state is a state
      transformer returning an [outcome]. *)

From Stdlib Require Import List String Ascii Bool Arith ZArith Lia.
From stdpp Require Import gmap strings pretty.
Import ListNotations.

Local Open Scope string_scope.
Local Open Scope list_scope.
Local Set Warnings "-register-all".

(** ** Characters and key transforms *)

Module Keys.

Definition code (c : ascii) : nat := nat_of_ascii c.

(** [[A-Z]] of the regular expressions. *)
Definition is_upper (c : ascii) : bool := (65 <=? code c)%nat && (code c <=? 90)%nat.

(** [[a-z]] of the regular expressions. *)
Definition is_lower (c : ascii) : bool := (97 <=? code c)%nat && (code c <=? 122)%nat.

Definition is_digit (c : ascii) : bool := (48 <=? code c)%nat && (code c <=? 57)%nat.

(** Upper-case letters of Latin-1 outside ASCII: U+00C0..U+00DE but U+00D7. *)
Definition is_upper_latin1 (c : ascii) : bool :=
  (192 <=? code c)%nat && (code c <=? 222)%nat && negb (code c =? 215)%nat.

(** [String.prototype.toLowerCase] on one code unit below 256. *)
Definition toLowerCase_char (c : ascii) : ascii :=
  if is_upper c || is_upper_latin1 c then ascii_of_nat (code c + 32) else c.

(** [letter.toUpperCase()], which the source applies to a match of
    [[a-z]] only; other characters are left as they are. *)
Definition toUpperCase_letter (c : ascii) : ascii :=
  if is_lower c then ascii_of_nat (code c - 32) else c.

Fixpoint toLowerCase (s : string) : string :=
  match s with
  | EmptyString => EmptyString
  | String c s' => String (toLowerCase_char c) (toLowerCase s')
  end.

(** [key.replace(/([A-Z])/g, '_$1')]: an underscore before every [A-Z]. *)
Fixpoint underscore_uppers (s : string) : string :=
  match s with
  | EmptyString => EmptyString
  | String c s' =>
      if is_upper c then String "_" (String c (underscore_uppers s'))
      else String c (underscore_uppers s')
  end.

(** [const snakeKey = key.replace(/([A-Z])/g, '_$1').toLowerCase()] *)
Definition snakeKey (key : string) : string := toLowerCase (underscore_uppers key).

(** [const camelKey = key.replace(/_([a-z])/g, (match, letter) =>
    letter.toUpperCase())]: the scan goes left to right and resumes after
    each match, so matches do not overlap. *)
Fixpoint camelKey (key : string) : string :=
  match key with
  | EmptyString => EmptyString
  | String c rest =>
      match rest with
      | String letter rest' =>
          if (c =? "_")%char && is_lower letter
          then String (toUpperCase_letter letter) (camelKey rest')
          else String c (camelKey rest)
      | EmptyString => String c EmptyString
      end
  end.

(** The two naming conventions of the glossary, as predicates on keys:
    lower-case words and digits joined by underscores, and capitalised
    words concatenated without a separator. *)
Definition separated_char (c : ascii) : bool := is_lower c || is_digit c || (c =? "_")%char.

Fixpoint all_chars (p : ascii -> bool) (s : string) : bool :=
  match s with
  | EmptyString => true
  | String c s' => p c && all_chars p s'
  end.

Definition is_separated (key : string) : bool := all_chars separated_char key.



End Keys.

(** ** JSON-like values *)

Module Json.

(** The values the converters and the verifier handle: what [JSON.parse]
    produces, and [undefined] for an absent optional field. [number] is
    the type of JavaScript numbers; this code never inspects one. *)
Inductive value (number : Type) : Type :=
| VUndefined
| VNull
| VBool (b : bool)
| VNum (n : number)
| VStr (s : string)
| VArr (items : list (value number))
| VObj (props : list (string * value number)).

Arguments VUndefined {number}.
Arguments VNull {number}.
Arguments VBool {number} b.
Arguments VNum {number} n.
Arguments VStr {number} s.
Arguments VArr {number} items.
Arguments VObj {number} props.

Section Objects.
Context {A : Type}.

(** [Object.keys(obj)] *)
Definition keys (obj : list (string * A)) : list string := map fst obj.

(** [obj[key]], [None] standing for [undefined] *)
Fixpoint obj_get (obj : list (string * A)) (key : string) : option A :=
  match obj with
  | [] => None
  | (k, x) :: obj' => if String.eqb k key then Some x else obj_get obj' key
  end.

(** [result[key] = x]: an existing property keeps its place and takes
    the new value, a new property goes last. (The converters leave a
    key made of digits as it is and rename no other key to one, so the
    index-like keys, which [Object.keys] lists first, stay first.) *)
Fixpoint obj_set (result : list (string * A)) (key : string) (x : A) : list (string * A) :=
  match result with
  | [] => [(key, x)]
  | (k, y) :: result' =>
      if String.eqb k key then (k, x) :: result' else (k, y) :: obj_set result' key x
  end.
End Objects.

(** No string occurs twice. *)
Fixpoint distinct (l : list string) : bool :=
  match l with
  | [] => true
  | k :: l' => negb (existsb (String.eqb k) l') && distinct l'
  end.

Section Converters.
Context {number : Type}.
Abbreviation value := (value number).

(** [result[key] = x] on the accumulator of [toSnakeCase], an ordinary
    object that starts as [{}]. The accumulator is its own properties
    and [chain]: whether its prototype chain still leads to the accessor
    [__proto__] of [Object.prototype]. The value comes with [reaches]:
    whether an assignment to [__proto__] on it would reach that accessor.

    Every key but [__proto__] is written as an own property. The key
    [__proto__] is too, when the accumulator has it as an own property
    or its chain no longer leads to the accessor. Otherwise the setter
    runs and no property is made: [null], an array or an object becomes
    the accumulator's prototype, any other value is ignored. An array
    inherits the accessor; [null] ends the chain. *)
Definition assign (acc : list (string * value) * bool) (key : string) (x : value * bool)
  : list (string * value) * bool :=
  let '(result, chain) := acc in
  if String.eqb key "__proto__" && negb (existsb (String.eqb key) (keys result)) && chain
  then
    match fst x with
    | VNull => (result, false)
    | VArr _ => (result, true)
    | VObj _ => (result, snd x)
    | _ => (result, chain)
    end
  else (obj_set result key (fst x), chain).

(** [toSnakeCase] with, for the object it returns, whether an assignment
    to [__proto__] on that object would reach the accessor: it has no own
    property of the name and its chain leads there. Arrays element by
    element, objects by a [reduce] over [Object.keys] that starts from
    the empty object, everything else as it is. The fold runs over the
    properties, each key with the value [obj[key]] the source reads for
    it. *)
Fixpoint toSnakeCase_reaching (obj : value) : value * bool :=
  match obj with
  | VArr items => (VArr (map (fun v => fst (toSnakeCase_reaching v)) items), true)
  | VObj props =>
      let '(result, chain) :=
        fold_left
          (fun acc '(key, x) => assign acc (Keys.snakeKey key) (toSnakeCase_reaching x))
          props ([], true) in
      (VObj result, negb (existsb (String.eqb "__proto__") (keys result)) && chain)
  | _ => (obj, true)
  end.

(** [toSnakeCase]: the own properties of what the source returns. *)
Definition toSnakeCase (obj : value) : value := fst (toSnakeCase_reaching obj).

(** [toCamelCase], of the same structure with the other key transform. *)
Fixpoint toCamelCase (data : value) : value :=
  match data with
  | VArr items => VArr (map toCamelCase items)
  | VObj props =>
      VObj (fold_left
              (fun acc '(key, x) => obj_set acc (Keys.camelKey key) (toCamelCase x))
              props [])
  | _ => data
  end.

(** The converters' structure where every write makes or updates an own
    property: [toCamelCase], and [toSnakeCase] on a value none of whose
    keys is renamed to [__proto__]. *)
Fixpoint convert_keys (f : string -> string) (v : value) : value :=
  match v with
  | VArr items => VArr (map (convert_keys f) items)
  | VObj props =>
      VObj (fold_left (fun acc '(key, x) => obj_set acc (f key) (convert_keys f x)) props [])
  | _ => v
  end.

(** The specification's wording of the converters' output: "a
    structurally identical value (same shape, same leaf values) with
    every mapping key renamed". [rename_keys f] is that value: the same
    tree, each key [k] replaced by [f k]. *)
Fixpoint rename_keys (f : string -> string) (v : value) : value :=
  match v with
  | VArr items => VArr (map (rename_keys f) items)
  | VObj props => VObj (map (fun '(key, x) => (f key, rename_keys f x)) props)
  | _ => v
  end.

(** In every mapping of [v], the keys stay pairwise distinct once
    renamed by [f]. With the identity for [f] this is the invariant of
    the representation: an object has each property once. *)
Fixpoint renames_apart (f : string -> string) (v : value) : bool :=
  match v with
  | VArr items => forallb (renames_apart f) items
  | VObj props =>
      distinct (map f (keys props)) && forallb (fun '(_, x) => renames_apart f x) props
  | _ => true
  end.

Definition well_formed (v : value) : bool := renames_apart (fun k => k) v.

(** Every key of every mapping of [v] satisfies [p]. *)
Fixpoint all_keys (p : string -> bool) (v : value) : bool :=
  match v with
  | VArr items => forallb (all_keys p) items
  | VObj props => forallb (fun '(key, x) => p key && all_keys p x) props
  | _ => true
  end.

(** [v.key] or [v[key]] for an object [v]; [None] is [undefined]. *)
Definition field (v : value) (key : string) : option value :=
  match v with
  | VObj props => obj_get props key
  | _ => None
  end.

(** No key of [v] is renamed to [__proto__] by [toSnakeCase]: every
    write of the conversion makes or updates an own property. *)
Definition plain_writes (v : value) : bool :=
  all_keys (fun key => negb (String.eqb (Keys.snakeKey key) "__proto__")) v.

(** No key of [v] is [__proto__]. *)
Definition no_proto_key (v : value) : bool :=
  all_keys (fun key => negb (String.eqb key "__proto__")) v.
End Converters.

End Json.

(** ** Computations that may throw *)

Module Runtime.
Import Json.

(** What a [throw] carries. *)
Inductive thrown (number : Type) : Type :=
| Error (message : string)
    (* [new Error(message)] *)
| LibraryError (class_name message : string)
    (* an [Error] subclass raised by a collaborator: svix's
       WebhookVerificationError, [JSON.parse]'s SyntaxError *)
| ThrownValue (v : value number).
    (* any other value a handler throws *)

Arguments Error {number} message.
Arguments LibraryError {number} class_name message.
Arguments ThrownValue {number} v.

Inductive outcome (number A : Type) : Type :=
| Returned (a : A)
| Threw (e : thrown number).

Arguments Returned {number A} a.
Arguments Threw {number A} e.

(** A call: from the ambient state (console, clock, the caller's own
    variables) to an outcome and the state it leaves. *)
Definition Eff (number World A : Type) : Type := World -> outcome number A * World.

Section Operations.
Context {number World : Type}.
Abbreviation Eff := (Eff number World).

Definition ret {A} (a : A) : Eff A := fun w => (Returned a, w).

Definition throw {A} (e : thrown number) : Eff A := fun w => (Threw e, w).

Definition bind {A B} (m : Eff A) (k : A -> Eff B) : Eff B :=
  fun w =>
    match m w with
    | (Returned a, w') => k a w'
    | (Threw e, w') => (Threw e, w')
    end.

(** [try { body } catch (error) { handler }] *)
Definition try_catch {A} (body : Eff A) (handler : thrown number -> Eff A) : Eff A :=
  fun w =>
    match body w with
    | (Returned a, w') => (Returned a, w')
    | (Threw error, w') => handler error w'
    end.

Definition returns_normally {A} (r : outcome number A * World) : Prop :=
  exists a w', r = (Returned a, w').
End Operations.

End Runtime.

Notation "x <- m ;; k" := (Runtime.bind m (fun x => k))
  (at level 100, m at next level, right associativity).

(** ** Webhook Verifier *)

Module Verifier.
Import Json Runtime.

(** A transport header: [string | string[]]; an absent one ([undefined])
    is an absent key of the header map. *)
Inductive header_value : Type :=
| Single (s : string)
| Repeated (l : list string).

(** The object literal [svixHeaders]. *)
Record SvixHeaders : Type := {
  svix_id : option header_value;
  svix_timestamp : option header_value;
  svix_signature : option header_value;
}.

(** [const svixHeaders = {...}]: the three headers read from the request's
    header map; the casts [as string] do nothing at run time. *)
Definition svixHeaders (headers : gmap string header_value) : SvixHeaders :=
  {| svix_id := headers !! "svix-id";
     svix_timestamp := headers !! "svix-timestamp";
     svix_signature := headers !! "svix-signature" |}.

(** The [svix] package and [JSON.parse], which the verifier calls and the
    repository does not contain. [Webhook_new] is the constructor
    [new Webhook(secret)]. *)
Class SvixLibrary (number World : Type) : Type := {
  Webhook : Type;
  Webhook_new : string -> Eff number World Webhook;
  (** the checks of [Webhook.verify]: required headers present, timestamp
      within the tolerance, one of the signatures equal to the one
      recomputed from the key; it throws when one of them fails *)
  Webhook_authenticate : Webhook -> string -> SvixHeaders -> Eff number World unit;
  JSON_parse : string -> outcome number (value number);
}.

(** The name of the setting that holds the signing secret, and the error
    of the [catch] block. *)
Definition secret_variable : string := "RECURRENTE_SVIX_SIGNING_SECRET".
Definition invalid_signature {number} : thrown number := Error "Invalid webhook signature".

Section Verifier.
Context {number World : Type} `{Svix : SvixLibrary number World}.
Abbreviation Eff := (Eff number World).

(** Modelled from the spec: [Webhook.verify] of the svix package, whose
    source is not part of the repository. Section 4.2 gives its
    algorithm: reject when a header is missing, the timestamp is out of
    tolerance or no signature matches; "on success: parse the payload as
    structured data". The call site says the same: "Verify the signature
    and parse the event". *)
Definition Webhook_verify (svix : Webhook) (payload : string) (headers : SvixHeaders)
  : Eff (value number) :=
  _ <- Webhook_authenticate svix payload headers ;;
  fun w => (JSON_parse payload, w).

(** [verifySvixSignature(payload, headers)], with [process.env] as the
    argument [env]. [!signingSecret] holds of [undefined] and of the
    empty string. The constructor call is outside the [try]. *)
Definition verifySvixSignature (env : gmap string string) (payload : string)
    (headers : gmap string header_value) : Eff (value number) :=
  match env !! "RECURRENTE_SVIX_SIGNING_SECRET" with
  | None | Some EmptyString => throw (Error "Missing signing secret")
  | Some signingSecret =>
      let svixHeaders := svixHeaders headers in
      svix <- Webhook_new signingSecret ;;
      try_catch
        (event <- Webhook_verify svix payload svixHeaders ;;
         let camelCasedEvent := toCamelCase event in
         ret camelCasedEvent)
        (fun error => throw (Error "Invalid webhook signature"))
  end.
End Verifier.

End Verifier.

(** ** Webhook Dispatcher *)

Module Dispatcher.
Import Json Runtime.

(** [keyof EventTypeMapping] *)
Inductive EventTypeKey : Type :=
| payment_intent_succeeded
| payment_intent_failed
| subscription_create
| subscription_past_due
| subscription_paused
| subscription_cancel.

Definition key_name (k : EventTypeKey) : string :=
  match k with
  | payment_intent_succeeded => "payment_intent.succeeded"
  | payment_intent_failed => "payment_intent.failed"
  | subscription_create => "subscription.create"
  | subscription_past_due => "subscription.past_due"
  | subscription_paused => "subscription.paused"
  | subscription_cancel => "subscription.cancel"
  end.

Definition all_keys : list EventTypeKey :=
  [payment_intent_succeeded; payment_intent_failed; subscription_create;
   subscription_past_due; subscription_paused; subscription_cancel].

(** The label each default handler prints before the event. *)
Definition default_label (k : EventTypeKey) : string :=
  match k with
  | payment_intent_succeeded => "Default PaymentIntentSucceeded Handler:"
  | payment_intent_failed => "Default PaymentIntentFailed Handler:"
  | subscription_create => "Default SubscriptionCreate Handler:"
  | subscription_past_due => "Default SubscriptionPastDue Handler:"
  | subscription_paused => "Default SubscriptionPaused Handler:"
  | subscription_cancel => "Default SubscriptionCancel Handler:"
  end.

(** What the object literal [userHandlers] inherits from
    [Object.prototype], and how the call [handler(event)] ends for it,
    the event being an object and the call having no receiver:
    [constructor] returns its argument and [toString] answers for the
    missing receiver; the other methods need a receiver and throw a
    [TypeError]; [__proto__] reads as the prototype object, which is
    truthy and cannot be called. The text of a [TypeError] is the
    engine's own; one stands for all. *)
Definition inherited {number} (name : string) : option (outcome number unit) :=
  if existsb (String.eqb name) ["constructor"; "toString"] then Some (Returned tt)
  else if existsb (String.eqb name)
            ["toLocaleString"; "valueOf"; "hasOwnProperty"; "isPrototypeOf";
             "propertyIsEnumerable"; "__defineGetter__"; "__defineSetter__";
             "__lookupGetter__"; "__lookupSetter__"]
  then Some (Threw (LibraryError "TypeError" "Cannot convert undefined or null to object"))
  else if String.eqb name "__proto__"
  then Some (Threw (LibraryError "TypeError" "handler is not a function"))
  else None.

Section Dispatcher.
Context {number World Event : Type}.
(** [event.eventType], a string by the type [RecurrenteWebhookEvent] *)
Variable eventType : Event -> string.
(** [console.log(label, event)] *)
Variable console_log : string -> Event -> World -> World.

(** [WebhookHandler<T> = (event: T) => void] *)
Definition WebhookHandler : Type := Event -> Eff number World unit.

Definition default_handler (k : EventTypeKey) : WebhookHandler :=
  fun event w => (Returned tt, console_log (default_label k) event w).

(** The module-level object [userHandlers] as the module leaves it when
    it is loaded. The registry is the map of that object's own
    properties, one per event type; what the object inherits is
    [inherited]. *)
Definition userHandlers : gmap string WebhookHandler :=
  <[key_name subscription_cancel := default_handler subscription_cancel]>
  (<[key_name subscription_paused := default_handler subscription_paused]>
  (<[key_name subscription_past_due := default_handler subscription_past_due]>
  (<[key_name subscription_create := default_handler subscription_create]>
  (<[key_name payment_intent_failed := default_handler payment_intent_failed]>
  (<[key_name payment_intent_succeeded := default_handler payment_intent_succeeded]>
   ∅))))).

(** [userHandlers[eventType] = handler], the registry passed explicitly. *)
Definition registerWebhookHandler (eventType : EventTypeKey) (handler : WebhookHandler)
    (handlers : gmap string WebhookHandler) : gmap string WebhookHandler :=
  <[key_name eventType := handler]> handlers.

(** [handleWebhookEvent(event)]. The lookup [userHandlers[...]] finds an
    own property or else a member inherited from [Object.prototype];
    whatever it finds is truthy and is called. The handler is looked up
    before it runs, so what it does to the registry cannot change which
    handler this call invokes. *)
Definition handleWebhookEvent (handlers : gmap string WebhookHandler) (event : Event)
  : Eff number World unit :=
  match handlers !! eventType event with
  | Some handler => handler event
  | None =>
      match inherited (eventType event) with
      | Some result => fun w => (result, w)
      | None => throw (Error ("No handler registered for event type: " ++ eventType event))
      end
  end.

(** The registries the module can be in: the initial one, changed by
    any number of registrations. *)
Inductive reachable : gmap string WebhookHandler -> Prop :=
| reachable_initial : reachable userHandlers
| reachable_register k handler handlers :
    reachable handlers -> reachable (registerWebhookHandler k handler handlers).
End Dispatcher.

End Dispatcher.

(** ** Concrete instances

    A small world to run the definitions in: integers for numbers, the
    console as the ambient state, and a stand-in for the svix package. *)

Module Fixtures.
Import Json Runtime Verifier Dispatcher.

Abbreviation jvalue := (value Z).

(** The ambient state: the lines written to the console, oldest first. *)
Definition World : Type := list (string * jvalue).

Definition console_log (label : string) (event : jvalue) (w : World) : World :=
  w ++ [(label, event)].

(** [event.eventType] of an event object; an object without the field
    reads [undefined], which prints as such. *)
Definition eventType (event : jvalue) : string :=
  match event with
  | VObj props =>
      match obj_get props "eventType" with
      | Some (VStr t) => t
      | _ => "undefined"
      end
  | _ => "undefined"
  end.

Definition quote : string := String (ascii_of_nat 34) EmptyString.
Definition jstr (s : string) : string := quote ++ s ++ quote.

(** [{"event_type":"subscription.cancel","customer_id":"cus_1"}] *)
Definition payload_cancel : string :=
  "{" ++ jstr "event_type" ++ ":" ++ jstr "subscription.cancel" ++ ","
      ++ jstr "customer_id" ++ ":" ++ jstr "cus_1" ++ "}".

(** [{"event_type":"subscription.cancel","eventType":"payment_intent.failed"}] *)
Definition payload_shadowed : string :=
  "{" ++ jstr "event_type" ++ ":" ++ jstr "subscription.cancel" ++ ","
      ++ jstr "eventType" ++ ":" ++ jstr "payment_intent.failed" ++ "}".

(** [{"event_type":], cut short *)
Definition payload_truncated : string := "{" ++ jstr "event_type" ++ ":".

Definition parsed_cancel : jvalue :=
  VObj [("event_type", VStr "subscription.cancel"); ("customer_id", VStr "cus_1")].

Definition parsed_shadowed : jvalue :=
  VObj [("event_type", VStr "subscription.cancel"); ("eventType", VStr "payment_intent.failed")].

(** [JSON.parse] on the payloads above; the text it does not know is
    answered as ill-formed. *)
Definition parse (payload : string) : outcome Z jvalue :=
  if String.eqb payload payload_cancel then Returned parsed_cancel
  else if String.eqb payload payload_shadowed then Returned parsed_shadowed
  else Threw (LibraryError "SyntaxError" "Unexpected end of JSON input").

(** A keyed tag over [{id}.{timestamp}.{payload}], standing in for the
    HMAC of the real package. *)
Definition sign (key id timestamp payload : string) : string :=
  "v1," ++ key ++ "|" ++ id ++ "." ++ timestamp ++ "." ++ payload.

(** The only timestamp within tolerance. *)
Definition now : string := "1700000000".

Definition authenticate (key payload : string) (headers : SvixHeaders)
  : Eff Z World unit :=
  match svix_id headers, svix_timestamp headers, svix_signature headers with
  | Some (Single id), Some (Single timestamp), Some (Single signature) =>
      if negb (String.eqb timestamp now)
      then throw (LibraryError "WebhookVerificationError" "Message timestamp too old")
      else if String.eqb signature (sign key id timestamp payload) then ret tt
      else throw (LibraryError "WebhookVerificationError" "No matching signature found")
  | _, _, _ => throw (LibraryError "WebhookVerificationError" "Missing required headers")
  end.

#[export] Instance svix : SvixLibrary Z World := {|
  Webhook := string;
  Webhook_new := fun secret => ret secret;
  Webhook_authenticate := authenticate;
  JSON_parse := parse;
|}.

Definition secret : string := "whsec_test".

Definition env : gmap string string := {[ "RECURRENTE_SVIX_SIGNING_SECRET" := secret ]}.

(** Headers signed with [key] for [payload]. *)
Definition signed_headers (key payload : string) : gmap string header_value :=
  <["svix-id" := Single "msg_1"]>
  (<["svix-timestamp" := Single now]>
  (<["svix-signature" := Single (sign key "msg_1" now payload)]> ∅)).

(** A handler that writes its name to the console. *)
Definition named_handler (name : string) : WebhookHandler (number := Z) (World := World) (Event := jvalue) :=
  fun event w => (Returned tt, console_log name event w).

(** A handler that faults. *)
Definition failing_handler : WebhookHandler (number := Z) (World := World) (Event := jvalue) :=
  fun event w => (Threw (Error "handler failed"), w).

Definition cancel_event : jvalue :=
  VObj [("eventType", VStr "subscription.cancel"); ("customerId", VStr "cus_1")].

Definition resumed_event : jvalue :=
  VObj [("eventType", VStr "subscription.resumed")].

Definition colliding : jvalue := VObj [("aB", VNum 1%Z); ("a_b", VNum 2%Z)].

Definition product : jvalue :=
  VObj [("name", VStr "Producto");
        ("pricesAttributes",
         VArr [VObj [("currency", VStr "GTQ"); ("chargeType", VStr "one_time");
                     ("amountInCents", VNum 1000%Z)]]);
        ("cancelUrl", VNull)].

Definition product_wire : jvalue :=
  VObj [("name", VStr "Producto");
        ("prices_attributes",
         VArr [VObj [("currency", VStr "GTQ"); ("charge_type", VStr "one_time");
                     ("amount_in_cents", VNum 1000%Z)]]);
        ("cancel_url", VNull)].

End Fixtures.

(** ** Shapes of keys *)

Module KeyShapes.
Import Keys.

(** No character of [A-Z]. *)
Definition no_upper (key : string) : bool := all_chars (fun c => negb (is_upper c)) key.

(** No underscore directly followed by a character of [a-z]: nothing for
    the pattern of [toCamelCase] to match. *)
Fixpoint no_separator_match (key : string) : bool :=
  match key with
  | EmptyString => true
  | String c rest =>
      match rest with
      | String letter _ => negb ((c =? "_")%char && is_lower letter) && no_separator_match rest
      | EmptyString => true
      end
  end.

End KeyShapes.

(** ** Truthiness and string conversion *)

Module Scalars.
Import Json Runtime.

(** What this code needs of JavaScript numbers. *)
Class NumberOps (number : Type) : Type := {
  (** [0], [-0] and [NaN] *)
  number_is_falsy : number -> bool;
  (** the string a template literal prints for the number *)
  number_to_string : number -> string;
  (** the literal [1] *)
  number_one : number;
}.

Section Scalars.
Context {number : Type} `{Numbers : NumberOps number}.
Abbreviation value := (value number).

(** The condition of [if (v)], [!v] and [v || w]. *)
Definition truthy (v : value) : bool :=
  match v with
  | VUndefined | VNull => false
  | VBool b => b
  | VNum n => negb (number_is_falsy n)
  | VStr s => negb (String.eqb s EmptyString)
  | VArr _ | VObj _ => true
  end.

(** [a || b] *)
Definition or_else (a b : value) : value := if truthy a then a else b.

(** [v.key] for a value [v] other than [null] and [undefined] and a key
    other than [length] and the indices: the own property of an object,
    [undefined] otherwise. *)
Definition property (v : value) (key : string) : value :=
  match field v key with
  | Some x => x
  | None => VUndefined
  end.

(** [Array.prototype.join] with the separator [","], the elements already
    converted; [None] is a [TypeError] raised by one of the conversions. *)
Fixpoint join_comma (parts : list (option string)) : option string :=
  match parts with
  | [] => Some EmptyString
  | [part] => part
  | part :: parts' =>
      match part, join_comma parts' with
      | Some s, Some s' => Some (s ++ "," ++ s')%string
      | _, _ => None
      end
  end.

(** The conversion a template literal applies, [None] for a [TypeError].
    An array prints its elements joined by commas, [null] and [undefined]
    elements as the empty string; a plain object prints as
    [[object Object]], unless an own property [toString] (which in a
    parsed value is no function) hides the inherited method. *)
Fixpoint to_string (v : value) : option string :=
  match v with
  | VUndefined => Some "undefined"
  | VNull => Some "null"
  | VBool b => Some (if b then "true" else "false")
  | VNum n => Some (number_to_string n)
  | VStr s => Some s
  | VArr items =>
      join_comma
        (map (fun x => match x with
                       | VUndefined | VNull => Some EmptyString
                       | _ => to_string x
                       end) items)
  | VObj props =>
      if existsb (String.eqb "toString") (keys props) then None
      else Some "[object Object]"
  end.
End Scalars.

End Scalars.

(** ** Resource operations and their error handler ([src/api/recurrente.ts]) *)

Module Resources.
Import Json Runtime Scalars.

(** The fields of an Axios response this code reads. *)
Record AxiosResponse (number : Type) : Type := {
  status : number;
  data : value number;
}.

Arguments status {number} _.
Arguments data {number} _.

(** What a [catch (error: unknown)] receives: an error for which
    [axios.isAxiosError] holds, with its [message] and its optional
    [response], or anything else. *)
Inductive caught (number : Type) : Type :=
| AxiosError (message : string) (response : option (AxiosResponse number))
| NotAxiosError (e : thrown number).

Arguments AxiosError {number} message response.
Arguments NotAxiosError {number} e.

(** The transport [client] (the Axios instance): each call answers with a
    response or rejects. *)
Class HttpClient (number World : Type) : Type := {
  client_get : string -> World -> (caught number + AxiosResponse number) * World;
  client_post : string -> value number -> World -> (caught number + AxiosResponse number) * World;
  client_patch : string -> value number -> World -> (caught number + AxiosResponse number) * World;
  client_delete : string -> World -> (caught number + AxiosResponse number) * World;
}.

Section Resources.
Context {number World : Type} `{Numbers : NumberOps number} `{Client : HttpClient number World}.
Abbreviation value := (value number).
Abbreviation Eff := (Eff number World).

(** [handleAxiosError(error)]: the [ErrorResponse] object. *)
Definition handleAxiosError (error : caught number) : value :=
  match error with
  | AxiosError message response =>
      match response with
      | Some response' =>
          if truthy (data response')
          then VObj [("status", VStr "error");
                     ("message", or_else (property (data response') "message")
                                         (VStr "An error occurred"));
                     ("errors", or_else (property (data response') "errors") (VObj []))]
          else VObj [("status", VStr "error");
                     ("message", or_else (VStr message) (VStr "Unknown Axios error occurred"))]
      | None =>
          VObj [("status", VStr "error");
                ("message", or_else (VStr message) (VStr "Unknown Axios error occurred"))]
      end
  | NotAxiosError _ =>
      VObj [("status", VStr "error"); ("message", VStr "An unknown error occurred")]
  end.

(** The body of a [try] block: it ends with a result or with what the
    [catch] receives. *)
Definition Attempt (A : Type) : Type := World -> (caught number + A) * World.

(** [const response = await call; return k(response)] inside a [try] *)
Definition on_response {A} (call : World -> (caught number + AxiosResponse number) * World)
    (k : AxiosResponse number -> caught number + A) : Attempt A :=
  fun w =>
    match call w with
    | (inr response, w') => (k response, w')
    | (inl error, w') => (inl error, w')
    end.

(** [try { body } catch (error: unknown) { throw handleAxiosError(error) }],
    the frame of every operation. *)
Definition try_handleAxiosError {A} (body : Attempt A) : Eff A :=
  fun w =>
    match body w with
    | (inr a, w') => (Returned a, w')
    | (inl error, w') => (Threw (ThrownValue (handleAxiosError error)), w')
    end.

Definition createProduct (productData : value) : Eff value :=
  try_handleAxiosError
    (let productDataInSnakeCase := toSnakeCase productData in
     on_response (client_post "/products/" productDataInSnakeCase)
       (fun response => inr (toCamelCase (data response)))).

Definition getProduct (productId : string) : Eff value :=
  try_handleAxiosError
    (on_response (client_get ("/products/" ++ productId))
       (fun response => inr (toCamelCase (data response)))).

(** [getAllProducts(page = 1)]: the default stands in for an argument
    left out. *)
Definition getAllProducts (page : option number) : Eff value :=
  let page := match page with Some p => p | None => number_one end in
  try_handleAxiosError
    (on_response (client_get ("/products?page=" ++ number_to_string page))
       (fun response => inr (toCamelCase (data response)))).

Definition updateProduct (productId : string) (productData : value) : Eff value :=
  try_handleAxiosError
    (let productDataInSnakeCase := toSnakeCase productData in
     on_response (client_patch ("/products/" ++ productId) productDataInSnakeCase)
       (fun response => inr (toCamelCase (data response)))).

Definition createSubscription (productData : value) : Eff value :=
  try_handleAxiosError
    (let productDataInSnakeCase := toSnakeCase productData in
     on_response (client_post "/products/" productDataInSnakeCase)
       (fun response => inr (toCamelCase (data response)))).

Definition cancelSubscription (subscriptionId : string) : Eff value :=
  try_handleAxiosError
    (on_response (client_delete ("/subscriptions/" ++ subscriptionId))
       (fun response =>
          inr (VObj [("message",
                      VStr ("Subscription canceled successfully. Status: "
                            ++ number_to_string (status response)))]))).

Definition deleteProduct (productId : string) : Eff value :=
  try_handleAxiosError
    (on_response (client_delete ("/products/" ++ productId))
       (fun _ => inr (VObj [("message", VStr "Product deleted successfully")]))).

Definition getSubscription (subscriptionId : string) : Eff value :=
  try_handleAxiosError
    (on_response (client_get ("/subscriptions/" ++ subscriptionId))
       (fun response => inr (toCamelCase (data response)))).

(** [test()]. Reading [response.data.message] throws a [TypeError] when
    the body is [null] or [undefined], and so can the template literal;
    both happen inside the [try]. *)
Definition test : Eff value :=
  try_handleAxiosError
    (on_response (client_get "/test")
       (fun response =>
          match data response with
          | VUndefined | VNull =>
              inl (NotAxiosError (LibraryError "TypeError" "Cannot read properties"))
          | body =>
              match to_string (property body "message") with
              | Some text =>
                  inr (VObj [("message", VStr ("Test request succeeded. Status: " ++ text))])
              | None =>
                  inl (NotAxiosError
                         (LibraryError "TypeError" "Cannot convert object to primitive value"))
              end
          end)).

(** A call of a method of the exported object [recurrente]. *)
Inductive Call : Type :=
| Test
| CreateProduct (productData : value)
| GetProduct (productId : string)
| GetAllProducts (page : option number)
| UpdateProduct (productId : string) (productData : value)
| DeleteProduct (productId : string)
| CreateSubscription (productData : value)
| CancelSubscription (subscriptionId : string)
| GetSubscription (subscriptionId : string).

Definition recurrente (call : Call) : Eff value :=
  match call with
  | Test => test
  | CreateProduct productData => createProduct productData
  | GetProduct productId => getProduct productId
  | GetAllProducts page => getAllProducts page
  | UpdateProduct productId productData => updateProduct productId productData
  | DeleteProduct productId => deleteProduct productId
  | CreateSubscription productData => createSubscription productData
  | CancelSubscription subscriptionId => cancelSubscription subscriptionId
  | GetSubscription subscriptionId => getSubscription subscriptionId
  end.

(** The transport answers every request. *)
Definition always_responds : Prop :=
  (forall url w, exists response w', client_get url w = (inr response, w')) /\
  (forall url body w, exists response w', client_post url body w = (inr response, w')) /\
  (forall url body w, exists response w', client_patch url body w = (inr response, w')) /\
  (forall url w, exists response w', client_delete url w = (inr response, w')).
End Resources.

End Resources.

(** ** The transport's configuration (the Axios instance module) *)

Module Config.
Import Runtime.

(** The arguments of [axios.create]. *)
Record AxiosConfig : Type := {
  baseURL : string;
  headers : list (string * string);
}.

(** [!setting] for a setting read from [process.env]. *)
Definition missing (setting : option string) : bool :=
  match setting with
  | None | Some EmptyString => true
  | Some _ => false
  end.

(** The module body: the three settings are checked in turn, then the
    instance is created. *)
Definition axiosInstance {number} (env : gmap string string) : outcome number AxiosConfig :=
  match env !! "RECURRENTE_BASE_URL" with
  | None | Some EmptyString => Threw (Error "Missing Recurrente base URL")
  | Some baseURL' =>
      match env !! "RECURRENTE_PUBLIC_KEY" with
      | None | Some EmptyString => Threw (Error "Missing Recurrente Public Key")
      | Some publicKey =>
          match env !! "RECURRENTE_SECRET_KEY" with
          | None | Some EmptyString => Threw (Error "Missing Recurrente Secret Key")
          | Some secretKey =>
              Returned {| baseURL := baseURL' ++ "/api";
                          headers := [("X-PUBLIC-KEY", publicKey);
                                      ("X-SECRET-KEY", secretKey);
                                      ("Content-Type", "application/json")] |}
          end
      end
  end.

End Config.

(** ** Concrete instances for the resource operations *)

Module ResourceFixtures.
Import Json Runtime Verifier Scalars Resources.

Abbreviation jvalue := (value Z).

#[export] Instance numbers : NumberOps Z := {|
  number_is_falsy := fun n => Z.eqb n 0;
  number_to_string := fun n => pretty n;
  number_one := 1%Z;
|}.

(** The ambient state: the requests sent, oldest first, as method and
    URL. *)
Definition Requests : Type := list (string * string).

(** A transport that records each request and answers it as [answer]
    says for the URL. *)
Definition scripted (answer : string -> caught Z + AxiosResponse Z) : HttpClient Z Requests := {|
  client_get := fun url w => (answer url, w ++ [("GET", url)]);
  client_post := fun url _ w => (answer url, w ++ [("POST", url)]);
  client_patch := fun url _ w => (answer url, w ++ [("PATCH", url)]);
  client_delete := fun url w => (answer url, w ++ [("DELETE", url)]);
|}.

Definition created : jvalue :=
  VObj [("id", VStr "prod_1"); ("checkout_url", VStr "https://example.com/c/1")].

(** Every request is answered [200] with the same body. *)
Definition answers (body : jvalue) : HttpClient Z Requests :=
  scripted (fun _ => inr {| status := 200%Z; data := body |}).

Definition not_found : AxiosResponse Z :=
  {| status := 404%Z;
     data := VObj [("message", VStr "Not found"); ("errors", VNull)] |}.

(** Every request is rejected with the same error. *)
Definition rejects (error : caught Z) : HttpClient Z Requests := scripted (fun _ => inl error).

(** A svix stand-in whose constructor refuses a secret without the prefix
    [whsec_], as the package refuses a secret it cannot decode. *)
Definition strict_svix : SvixLibrary Z Fixtures.World := {|
  Webhook := string;
  Webhook_new := fun secret =>
    if String.prefix "whsec_" secret then ret secret
    else throw (LibraryError "Error" "Base64Coder: incorrect characters for decoding");
  Webhook_authenticate := Fixtures.authenticate;
  JSON_parse := Fixtures.parse;
|}.

Definition complete_env : gmap string string :=
  <["RECURRENTE_BASE_URL" := "https://app.recurrente.com"]>
  (<["RECURRENTE_PUBLIC_KEY" := "pk_1"]>
  (<["RECURRENTE_SECRET_KEY" := "sk_1"]> ∅)).

End ResourceFixtures.

(** ** A transport that keeps a log *)

Module Recording.
Import Json Runtime Resources.

(** A request as the transport receives it. *)
Record Request (number : Type) : Type := {
  method : string;
  url : string;
  body : option (value number);
}.

Arguments method {number} _.
Arguments url {number} _.
Arguments body {number} _.

(** The transport whose ambient state is the list of the requests made,
    oldest first, and which answers each request as [answer] says. *)
Definition recording {number} (answer : Request number -> caught number + AxiosResponse number)
  : HttpClient number (list (Request number)) := {|
  client_get := fun url w =>
    let request := {| method := "GET"; url := url; body := None |} in
    (answer request, w ++ [request]);
  client_post := fun url data w =>
    let request := {| method := "POST"; url := url; body := Some data |} in
    (answer request, w ++ [request]);
  client_patch := fun url data w =>
    let request := {| method := "PATCH"; url := url; body := Some data |} in
    (answer request, w ++ [request]);
  client_delete := fun url w =>
    let request := {| method := "DELETE"; url := url; body := None |} in
    (answer request, w ++ [request]);
|}.

End Recording.

(** ** Requests at the edges of the verifier's contract *)

Module EdgeFixtures.
Import Json Runtime Verifier.

(** [{"event_type":{"a_b":1}}] *)
Definition payload_nested : string :=
  "{" ++ Fixtures.jstr "event_type" ++ ":{" ++ Fixtures.jstr "a_b" ++ ":1}}".

Definition parsed_nested : Fixtures.jvalue :=
  VObj [("event_type", VObj [("a_b", VNum 1%Z)])].

(** [JSON.parse] of [Fixtures], with the payload above. *)
Definition parse (payload : string) : outcome Z Fixtures.jvalue :=
  if String.eqb payload payload_nested then Returned parsed_nested
  else Fixtures.parse payload.

Definition svix : SvixLibrary Z Fixtures.World := {|
  Webhook := string;
  Webhook_new := fun secret => ret secret;
  Webhook_authenticate := Fixtures.authenticate;
  JSON_parse := parse;
|}.



End EdgeFixtures.

(** * Properties *)

(** ** The key transforms *)

Module KeyFacts.
Import Keys.

Ltac by_cases_on c :=
  destruct c as [[] [] [] [] [] [] [] []]; vm_compute; intuition congruence.


Lemma upper_of_lower c :
  is_lower c = true ->
  is_upper (toUpperCase_letter c) = true /\ toLowerCase_char (toUpperCase_letter c) = c.
Proof. by_cases_on c. Qed.


Lemma separated_fixed c :
  separated_char c = true -> is_upper c = false /\ toLowerCase_char c = c.
Proof. by_cases_on c. Qed.

Lemma snakeKey_upper c k :
  is_upper c = true ->
  snakeKey (String c k) = String "_" (String (toLowerCase_char c) (snakeKey k)).
Proof. intros H. unfold snakeKey. simpl. rewrite H. reflexivity. Qed.

Lemma snakeKey_other c k :
  is_upper c = false -> snakeKey (String c k) = String (toLowerCase_char c) (snakeKey k).
Proof. intros H. unfold snakeKey. simpl. rewrite H. reflexivity. Qed.


Lemma camelKey_match d k :
  is_lower d = true ->
  camelKey (String "_" (String d k)) = String (toUpperCase_letter d) (camelKey k).
Proof. intros H. simpl. rewrite H. reflexivity. Qed.


(** The other trip needs the two-character step of [camelKey]: the
    induction is on a bound of the length. *)
Lemma snakeKey_camelKey_bounded n :
  forall k, String.length k <= n -> is_separated k = true -> snakeKey (camelKey k) = k.
Proof.
  unfold is_separated.
  induction n as [|n IH]; intros k Hlen Hk.
  - destruct k; [reflexivity | simpl in Hlen; lia].
  - destruct k as [|c [|d k]]; [reflexivity | |].
    + simpl in Hk. apply andb_prop in Hk as [Hc _].
      destruct (separated_fixed c Hc) as [Hup Hfix].
      simpl camelKey. rewrite snakeKey_other by assumption. rewrite Hfix. reflexivity.
    + simpl in Hk, Hlen.
      apply andb_prop in Hk as [Hc [Hd Hk]%andb_prop].
      destruct ((c =? "_")%char && is_lower d) eqn:Hm.
      * apply andb_prop in Hm as [Hsep Hlow].
        apply Ascii.eqb_eq in Hsep. subst c.
        rewrite camelKey_match by assumption.
        destruct (upper_of_lower d Hlow) as [Hup Hback].
        rewrite snakeKey_upper by assumption.
        rewrite Hback, IH; [reflexivity | lia | assumption].
      * assert (Hstep : camelKey (String c (String d k)) = String c (camelKey (String d k))).
        { simpl. simpl in Hm. rewrite Hm. reflexivity. }
        rewrite Hstep.
        destruct (separated_fixed c Hc) as [Hup Hfix].
        rewrite snakeKey_other by assumption.
        rewrite Hfix, IH; [reflexivity | simpl; lia |].
        simpl. rewrite Hd, Hk. reflexivity.
Qed.

Lemma snakeKey_camelKey k : is_separated k = true -> snakeKey (camelKey k) = k.
Proof. apply (snakeKey_camelKey_bounded (String.length k)). lia. Qed.





End KeyFacts.

(** ** Objects and the converters *)

Module JsonFacts.
Import Json.

Section Induction.
Context {number : Type}.
Variable P : value number -> Prop.
Hypothesis leaf_undefined : P VUndefined.
Hypothesis leaf_null : P VNull.
Hypothesis leaf_bool : forall b, P (VBool b).
Hypothesis leaf_num : forall n, P (VNum n).
Hypothesis leaf_str : forall s, P (VStr s).
Hypothesis node_arr : forall items, Forall P items -> P (VArr items).
Hypothesis node_obj : forall props, Forall (fun q => P (snd q)) props -> P (VObj props).

(** Induction over a value, with the hypothesis on every element of an
    array and every property of an object. *)
Lemma value_induction : forall v, P v.
Proof.
  fix IH 1. intros [ | | b | n | s | items | props ].
  - exact leaf_undefined.
  - exact leaf_null.
  - apply leaf_bool.
  - apply leaf_num.
  - apply leaf_str.
  - apply node_arr. induction items as [|x items IHitems]; constructor.
    + apply IH.
    + exact IHitems.
  - apply node_obj. induction props as [|[k x] props IHprops]; constructor.
    + apply IH.
    + exact IHprops.
Qed.
End Induction.

Lemma distinct_NoDup l : distinct l = true <-> List.NoDup l.
Proof.
  induction l as [|k l IH]; simpl.
  - split; [constructor | reflexivity].
  - rewrite andb_true_iff, negb_true_iff, IH, List.NoDup_cons_iff.
    assert (Hin : existsb (String.eqb k) l = false <-> ~ In k l).
    { rewrite <- not_true_iff_false, existsb_exists. split.
      - intros H Hk. apply H. exists k. split; [assumption | apply String.eqb_refl].
      - intros H [k' [Hk' Heq]]. apply String.eqb_eq in Heq. subst. contradiction. }
    rewrite Hin. reflexivity.
Qed.

Section Objects.
Context {A : Type}.
Implicit Types (obj : list (string * A)) (key : string) (x : A).

Lemma obj_set_fresh obj key x : ~ In key (keys obj) -> obj_set obj key x = obj ++ [(key, x)].
Proof.
  induction obj as [|[k y] obj IH]; simpl; intros Hfresh; [reflexivity|].
  destruct (String.eqb_spec k key) as [->|Hne]; [tauto|].
  rewrite IH by tauto. reflexivity.
Qed.

Lemma obj_get_set_same obj key x : obj_get (obj_set obj key x) key = Some x.
Proof.
  induction obj as [|[k y] obj IH]; simpl.
  - rewrite String.eqb_refl. reflexivity.
  - destruct (String.eqb_spec k key) as [->|Hne]; simpl.
    + rewrite String.eqb_refl. reflexivity.
    + destruct (String.eqb_spec k key); [contradiction | exact IH].
Qed.

Lemma obj_get_set_other obj key key' x :
  key <> key' -> obj_get (obj_set obj key x) key' = obj_get obj key'.
Proof.
  intros Hne. induction obj as [|[k y] obj IH]; simpl.
  - destruct (String.eqb_spec key key'); [contradiction | reflexivity].
  - destruct (String.eqb_spec k key) as [->|Hk]; simpl.
    + destruct (String.eqb_spec key key'); [contradiction | reflexivity].
    + destruct (String.eqb_spec k key'); [reflexivity | exact IH].
Qed.

Lemma keys_obj_set obj key x :
  keys (obj_set obj key x) = if existsb (String.eqb key) (keys obj) then keys obj else keys obj ++ [key].
Proof.
  induction obj as [|[k y] obj IH]; simpl; [reflexivity|].
  rewrite (String.eqb_sym key k).
  destruct (String.eqb_spec k key) as [->|Hk]; simpl; [reflexivity|].
  rewrite IH. destruct (existsb _ _); reflexivity.
Qed.
End Objects.

(** The value the [reduce] leaves under a key is the one written last:
    properties whose renamed key is another one do not touch it. *)
Lemma obj_get_fold_other {A B} (f : string -> string) (g : B -> A) (key : string)
    (props : list (string * B)) (acc : list (string * A)) :
  Forall (fun q => f (fst q) <> key) props ->
  obj_get (fold_left (fun acc '(k, x) => obj_set acc (f k) (g x)) props acc) key
  = obj_get acc key.
Proof.
  intros H. revert acc. induction H as [|[k x] props Hk _ IH]; simpl; intros acc; [reflexivity|].
  rewrite IH. apply obj_get_set_other. exact Hk.
Qed.

Lemma obj_get_fold_last {A B} (f : string -> string) (g : B -> A) (key : string) (x : B)
    (before after : list (string * B)) (acc : list (string * A)) :
  Forall (fun q => f (fst q) <> f key) after ->
  obj_get (fold_left (fun acc '(k, x) => obj_set acc (f k) (g x))
             (before ++ (key, x) :: after) acc) (f key)
  = Some (g x).
Proof.
  intros H. rewrite fold_left_app. simpl.
  rewrite obj_get_fold_other by exact H. apply obj_get_set_same.
Qed.

(** When the renamed keys are new and pairwise distinct, the [reduce] of
    the converters appends one property per key, in order. *)
Lemma fold_obj_set_apart {A B} (f : string -> string) (g : B -> A)
    (props : list (string * B)) (acc : list (string * A)) :
  List.NoDup (keys acc ++ map f (keys props)) ->
  fold_left (fun acc '(key, x) => obj_set acc (f key) (g x)) props acc
  = acc ++ map (fun '(key, x) => (f key, g x)) props.
Proof.
  revert acc. induction props as [|[k x] props IH]; simpl; intros acc Hnd.
  - rewrite app_nil_r. reflexivity.
  - assert (Hfresh : ~ In (f k) (keys acc)).
    { intros Hin. apply List.NoDup_remove_2 in Hnd. apply Hnd, in_or_app. left. assumption. }
    rewrite obj_set_fresh by assumption.
    rewrite IH.
    + rewrite <- app_assoc. reflexivity.
    + unfold keys in *. rewrite map_app, <- app_assoc. exact Hnd.
Qed.

Lemma fold_left_agree {A B} (F G : A -> B -> A) (l : list B) (a : A) :
  Forall (fun b => forall a, F a b = G a b) l -> fold_left F l a = fold_left G l a.
Proof.
  intros H. revert a. induction H as [|b l Hb _ IH]; simpl; intros a; [reflexivity|].
  rewrite Hb. apply IH.
Qed.

Lemma map_agree {A B} (F G : A -> B) (l : list A) :
  Forall (fun a => F a = G a) l -> map F l = map G l.
Proof. induction 1 as [|a l Ha _ IH]; simpl; [reflexivity|]. rewrite Ha, IH. reflexivity. Qed.

Section Converters.
Context {number : Type}.
Implicit Types (v : value number) (f g : string -> string) (p : string -> bool).
Implicit Types (items : list (value number)) (props : list (string * value number)).

Lemma toCamelCase_convert v : toCamelCase v = convert_keys Keys.camelKey v.
Proof.
  induction v as [ | | | | | items IH | props IH ] using value_induction; try reflexivity; simpl.
  - f_equal. apply map_agree, IH.
  - f_equal. apply fold_left_agree.
    eapply List.Forall_impl; [|exact IH]. intros [k x] Hx acc. simpl in *. rewrite Hx. reflexivity.
Qed.

Lemma renames_apart_arr f items :
  renames_apart f (VArr items) = true <-> Forall (fun x => renames_apart f x = true) items.
Proof. simpl. rewrite forallb_forall, List.Forall_forall. reflexivity. Qed.

Lemma renames_apart_obj f props :
  renames_apart f (VObj props) = true <->
  List.NoDup (map f (keys props)) /\ Forall (fun q => renames_apart f (snd q) = true) props.
Proof.
  simpl. rewrite andb_true_iff, distinct_NoDup, forallb_forall, List.Forall_forall.
  split; intros [Hk Hx]; split; try assumption.
  - intros [k x] Hin. apply (Hx (k, x) Hin).
  - intros [k x] Hin. apply (Hx (k, x) Hin).
Qed.

Lemma all_keys_arr p items :
  all_keys p (VArr items) = true <-> Forall (fun x => all_keys p x = true) items.
Proof. simpl. rewrite forallb_forall, List.Forall_forall. reflexivity. Qed.

Lemma all_keys_obj p props :
  all_keys p (VObj props) = true <->
  Forall (fun q => p (fst q) = true /\ all_keys p (snd q) = true) props.
Proof.
  simpl. rewrite forallb_forall, List.Forall_forall.
  split; intros H [k x] Hin; specialize (H (k, x) Hin); simpl in *.
  - apply andb_prop in H. exact H.
  - apply andb_true_intro. exact H.
Qed.

(** Without a collision the converter is the plain renaming. *)
Lemma convert_keys_apart f v : renames_apart f v = true -> convert_keys f v = rename_keys f v.
Proof.
  induction v as [ | | | | | items IH | props IH ] using value_induction; try reflexivity.
  - rewrite renames_apart_arr. intros Hitems. simpl. f_equal.
    apply map_agree. rewrite List.Forall_forall in *. auto.
  - rewrite renames_apart_obj. intros [Hkeys Hprops]. simpl. f_equal.
    rewrite fold_obj_set_apart by exact Hkeys. simpl.
    apply map_agree. rewrite List.Forall_forall in *.
    intros [k x] Hin. f_equal. apply (IH (k, x) Hin), (Hprops (k, x) Hin).
Qed.

Lemma rename_keys_compose f g v : rename_keys g (rename_keys f v) = rename_keys (fun k => g (f k)) v.
Proof.
  induction v as [ | | | | | items IH | props IH ] using value_induction; try reflexivity; simpl.
  - f_equal. rewrite map_map. apply map_agree, IH.
  - f_equal. rewrite map_map. apply map_agree.
    eapply List.Forall_impl; [|exact IH]. intros [k x] Hx. simpl in *. rewrite Hx. reflexivity.
Qed.

Lemma rename_keys_fixed f p v :
  (forall k, p k = true -> f k = k) -> all_keys p v = true -> rename_keys f v = v.
Proof.
  intros Hf.
  induction v as [ | | | | | items IH | props IH ] using value_induction; try reflexivity.
  - rewrite all_keys_arr. intros Hitems. simpl. f_equal.
    rewrite <- (map_id items) at 2. apply map_agree.
    rewrite List.Forall_forall in *. auto.
  - rewrite all_keys_obj. intros Hprops. simpl. f_equal.
    rewrite <- (map_id props) at 2. apply map_agree.
    rewrite List.Forall_forall in *.
    intros [k x] Hin. destruct (Hprops (k, x) Hin) as [Hk Hx].
    pose proof (IH (k, x) Hin Hx) as Hfix. simpl in Hk, Hfix.
    rewrite (Hf k Hk), Hfix. reflexivity.
Qed.

Lemma keys_rename f props :
  keys (map (fun '(key, x) => (f key, rename_keys f x)) props) = map f (keys (A := value number) props).
Proof. unfold keys. rewrite !map_map. apply map_agree, List.Forall_forall. intros [k x] _. reflexivity. Qed.

(** A transform with a left inverse on the keys in use keeps distinct
    keys distinct, and its inverse does so on the renamed value. *)
Lemma renames_apart_invertible f g p v :
  (forall k, p k = true -> g (f k) = k) ->
  all_keys p v = true -> well_formed v = true ->
  renames_apart f v = true /\ renames_apart g (rename_keys f v) = true.
Proof.
  intros Hgf. unfold well_formed.
  induction v as [ | | | | | items IH | props IH ] using value_induction; try (split; reflexivity).
  - rewrite all_keys_arr, renames_apart_arr. intros Hp Hwf. simpl rename_keys.
    rewrite !renames_apart_arr. rewrite !List.Forall_forall in *.
    split.
    + intros x Hin. apply (IH x Hin); auto.
    + intros y [x [<- Hin]]%in_map_iff. apply (IH x Hin); auto.
  - rewrite all_keys_obj, renames_apart_obj. intros Hp [Hkeys Hwf]. simpl rename_keys.
    rewrite !renames_apart_obj, keys_rename. rewrite !List.Forall_forall in *.
    rewrite map_id in Hkeys.
    assert (Hback : map g (map f (keys props)) = keys props).
    { rewrite map_map. rewrite <- (map_id (keys props)) at 2.
      apply map_agree, List.Forall_forall. unfold keys.
      intros k [[k' x] [<- Hin]]%in_map_iff. apply Hgf, (Hp (k', x) Hin). }
    repeat split.
    + apply (List.NoDup_map_inv g). rewrite Hback. exact Hkeys.
    + intros [k x] Hin. apply (IH (k, x) Hin); [apply (Hp (k, x) Hin) | apply (Hwf (k, x) Hin)].
    + rewrite Hback. exact Hkeys.
    + intros [k' y] [[k x] [Heq Hin]]%in_map_iff. inversion Heq; subst. simpl.
      apply (IH (k, x) Hin); [apply (Hp (k, x) Hin) | apply (Hwf (k, x) Hin)].
Qed.

Lemma all_keys_impl p q v :
  (forall k, p k = true -> q k = true) -> all_keys p v = true -> all_keys q v = true.
Proof.
  intros Hpq.
  induction v as [ | | | | | items IH | props IH ] using value_induction; try reflexivity.
  - rewrite !all_keys_arr. rewrite !List.Forall_forall in *. auto.
  - rewrite !all_keys_obj. rewrite !List.Forall_forall in *.
    intros Hprops [k x] Hin. destruct (Hprops (k, x) Hin) as [Hk Hx].
    split; [apply Hpq, Hk | apply (IH (k, x) Hin), Hx].
Qed.

Lemma all_keys_and p q v :
  all_keys p v = true -> all_keys q v = true -> all_keys (fun k => p k && q k) v = true.
Proof.
  induction v as [ | | | | | items IH | props IH ] using value_induction; try reflexivity.
  - rewrite !all_keys_arr. rewrite !List.Forall_forall in *. auto.
  - rewrite !all_keys_obj. rewrite !List.Forall_forall in *.
    intros Hp Hq [k x] Hin.
    destruct (Hp (k, x) Hin) as [Hpk Hpx]. destruct (Hq (k, x) Hin) as [Hqk Hqx].
    split; [simpl in *; rewrite Hpk, Hqk; reflexivity | apply (IH (k, x) Hin); assumption].
Qed.

Lemma all_keys_rename f p v :
  all_keys (fun k => p (f k)) v = true -> all_keys p (rename_keys f v) = true.
Proof.
  induction v as [ | | | | | items IH | props IH ] using value_induction; try reflexivity.
  - rewrite all_keys_arr. intros Hitems. simpl rename_keys.
    rewrite all_keys_arr. rewrite !List.Forall_forall in *.
    intros y [x [<- Hin]]%in_map_iff. auto.
  - rewrite all_keys_obj. intros Hprops. simpl rename_keys.
    rewrite all_keys_obj. rewrite !List.Forall_forall in *.
    intros [k' y] [[k x] [Heq Hin]]%in_map_iff. inversion Heq; subst.
    destruct (Hprops (k, x) Hin) as [Hk Hx]. split; [exact Hk | apply (IH (k, x) Hin), Hx].
Qed.

(** *** [toSnakeCase] and the accessor [__proto__] *)

Abbreviation snake_step :=
  (fun acc '(key, x) => assign acc (Keys.snakeKey key) (toSnakeCase_reaching x)).

Lemma toSnakeCase_arr items : toSnakeCase (VArr items) = VArr (map toSnakeCase items).
Proof. reflexivity. Qed.

Lemma toSnakeCase_obj props :
  toSnakeCase (VObj props) = VObj (fst (fold_left snake_step props ([], true))).
Proof.
  unfold toSnakeCase. simpl.
  destruct (fold_left _ props ([], true)) as [result chain]. reflexivity.
Qed.

(** A write under another key than [__proto__] makes or updates an own
    property. *)
Lemma assign_plain (acc : list (string * value number) * bool) key (x : value number * bool) :
  key <> "__proto__" -> assign acc key x = (obj_set (fst acc) key (fst x), snd acc).
Proof.
  intros Hkey. destruct acc as [result chain]. unfold assign.
  destruct (String.eqb_spec key "__proto__"); [contradiction | reflexivity].
Qed.

Lemma fold_assign_plain props (acc : list (string * value number) * bool) :
  Forall (fun r => Keys.snakeKey (fst r) <> "__proto__") props ->
  fst (fold_left snake_step props acc)
  = fold_left (fun result '(key, x) => obj_set result (Keys.snakeKey key) (toSnakeCase x))
      props (fst acc).
Proof.
  intros Hprops. revert acc.
  induction Hprops as [|[k x] props Hk _ IH]; intros acc; simpl; [reflexivity|].
  rewrite IH, assign_plain by exact Hk. reflexivity.
Qed.

Lemma plain_writes_obj props :
  plain_writes (VObj props) = true <->
  Forall (fun r => Keys.snakeKey (fst r) <> "__proto__" /\ plain_writes (snd r) = true) props.
Proof.
  unfold plain_writes. rewrite all_keys_obj.
  split; intros H; (eapply List.Forall_impl; [|exact H]); intros [k x]; simpl;
    rewrite negb_true_iff; intros [Hk Hx]; (split; [|exact Hx]).
  - apply String.eqb_neq, Hk.
  - apply String.eqb_neq, Hk.
Qed.

(** Where no key is renamed to [__proto__], [toSnakeCase] is the plain
    conversion. *)
Lemma toSnakeCase_convert v :
  plain_writes v = true -> toSnakeCase v = convert_keys Keys.snakeKey v.
Proof.
  induction v as [ | | | | | items IH | props IH ] using value_induction; try reflexivity.
  - unfold plain_writes. rewrite all_keys_arr. intros Hitems.
    rewrite toSnakeCase_arr. simpl. f_equal.
    apply map_agree. rewrite !List.Forall_forall in *.
    intros x Hin. apply (IH x Hin), (Hitems x Hin).
  - rewrite plain_writes_obj. intros Hprops.
    rewrite toSnakeCase_obj. simpl convert_keys. f_equal.
    rewrite fold_assign_plain
      by (eapply List.Forall_impl; [|exact Hprops]; intros r [Hr _]; exact Hr).
    apply fold_left_agree. rewrite !List.Forall_forall in *.
    intros [k x] Hin acc. destruct (Hprops (k, x) Hin) as [_ Hx].
    pose proof (IH (k, x) Hin Hx) as Hsame. simpl in Hsame. rewrite Hsame. reflexivity.
Qed.

End Converters.

End JsonFacts.

Module ConverterSpec.
Import Keys Json JsonFacts KeyFacts.

(** C10, as the claim states it, fails in two ways. Where two keys of one
    mapping are renamed to the same key, the [reduce] writes both values
    under that key, and the output has one property where the input has
    two. Where a key is renamed to [__proto__], the write reaches the
    setter the accumulator inherits and makes no property: the output
    lacks the key and its value. *)
Lemma toSnakeCase_collision :
  (well_formed Fixtures.colliding = true /\
   toSnakeCase Fixtures.colliding = VObj [("a_b", VNum 2%Z)] /\
   toSnakeCase Fixtures.colliding <> rename_keys snakeKey Fixtures.colliding) /\
  (renames_apart snakeKey (VObj [("_Proto__", VNum 1%Z)]) = true /\
   toSnakeCase (VObj [("_Proto__", VNum 1%Z)]) = VObj [] /\
   toSnakeCase (VObj [("_Proto__", VNum 1%Z)])
   <> rename_keys snakeKey (VObj [("_Proto__", VNum 1%Z)])).
Proof.
  split; (split; [reflexivity|]); (split; [reflexivity|]); vm_compute; discriminate.
Qed.

(** C10 (amended): for every value in which no two keys of one mapping are
    renamed to the same key and, for [toSnakeCase], no key is renamed to
    [__proto__], [toSnakeCase] and [toCamelCase] each return the value of
    the same shape and the same leaves in which every mapping key is
    renamed by the respective key transform. *)
Theorem converters_rename_keys {number} (v : value number) :
  (renames_apart snakeKey v = true -> plain_writes v = true ->
   toSnakeCase v = rename_keys snakeKey v) /\
  (renames_apart camelKey v = true -> toCamelCase v = rename_keys camelKey v).
Proof.
  split.
  - intros Hapart Hplain. rewrite toSnakeCase_convert by exact Hplain.
    apply convert_keys_apart, Hapart.
  - intros Hapart. rewrite toCamelCase_convert. apply convert_keys_apart, Hapart.
Qed.

Lemma converters_rename_keys_witness :
  (renames_apart snakeKey Fixtures.product = true /\
   plain_writes Fixtures.product = true /\
   toSnakeCase Fixtures.product = rename_keys snakeKey Fixtures.product) /\
  (renames_apart camelKey Fixtures.product_wire = true /\
   toCamelCase Fixtures.product_wire = rename_keys camelKey Fixtures.product_wire).
Proof.
  split.
  - split; [reflexivity|]. split; [reflexivity|].
    apply (proj1 (converters_rename_keys Fixtures.product)); reflexivity.
  - split; [reflexivity|].
    apply (proj2 (converters_rename_keys Fixtures.product_wire)). reflexivity.
Defined.



(** Outside the separator convention the second trip can lose a key: an
    own key [__proto__] comes back from [toCamelCase] as [_Proto__], and
    [toSnakeCase] writes that one through the inherited setter. *)
Example round_trip_loses_proto :
  toSnakeCase (toCamelCase (VObj [("__proto__", VNum 1%Z)])) = VObj [].
Proof. reflexivity. Qed.

(** Once [null] has been made the accumulator's prototype, the accessor
    is out of reach and the next write makes an own property. *)
Example proto_after_null :
  toSnakeCase (VObj [("__proto__", VNull); ("_Proto__", VNum 1%Z)])
  = VObj [("__proto__", VNum 1%Z)].
Proof. reflexivity. Qed.

Example toSnakeCase_product : toSnakeCase Fixtures.product = Fixtures.product_wire.
Proof. reflexivity. Qed.

Example toCamelCase_product_wire : toCamelCase Fixtures.product_wire = Fixtures.product.
Proof. reflexivity. Qed.

Example converters_on_leaves :
  toSnakeCase (VArr [VNum 1%Z; VStr "aB"; VBool true; VNull; VObj []; VArr []])
  = VArr [VNum 1%Z; VStr "aB"; VBool true; VNull; VObj []; VArr []].
Proof. reflexivity. Qed.

End ConverterSpec.

(** ** The dispatcher *)

Module DispatcherSpec.
Import Json Runtime Dispatcher.

Section Registry.
Context {number World Event : Type}.
Variable eventType : Event -> string.
Variable console_log : string -> Event -> World -> World.

Abbreviation Handler := (WebhookHandler (number := number) (World := World) (Event := Event)).
Abbreviation dispatch := (handleWebhookEvent (number := number) (World := World) eventType).
Abbreviation initial := (userHandlers (number := number) console_log).

Implicit Types (handlers : gmap string Handler) (handler : Handler) (event : Event).
Implicit Types (k : EventTypeKey) (w : World) (t : string).

Lemma initial_lookup k : initial !! key_name k = Some (default_handler console_log k).
Proof. destruct k; reflexivity. Qed.

Lemma initial_domain t : is_Some (initial !! t) <-> exists k, key_name k = t.
Proof.
  unfold userHandlers. rewrite !lookup_insert_is_Some', lookup_empty. split.
  - intros H. repeat (destruct H as [<-|H]; [eexists; reflexivity|]).
    destruct H as [? H]. discriminate H.
  - intros [k <-]. destruct k; simpl; auto 10.
Qed.

(** Registration never adds or removes a tag: the registry always holds
    the six tags of [EventTypeMapping] and nothing else. *)
Lemma reachable_domain handlers :
  reachable console_log handlers -> forall t, is_Some (handlers !! t) <-> exists k, key_name k = t.
Proof.
  induction 1 as [|k handler handlers _ IH]; intros t.
  - apply initial_domain.
  - unfold registerWebhookHandler. rewrite lookup_insert_is_Some', IH.
    split; [intros [<-|H]; eauto | auto].
Qed.

Lemma dispatch_found handlers handler event w :
  handlers !! eventType event = Some handler -> dispatch handlers event w = handler event w.
Proof. intros H. unfold handleWebhookEvent, WebhookHandler in *. rewrite H. reflexivity. Qed.

(** An event whose type is neither registered nor the name of a member
    [userHandlers] inherits: the lookup finds nothing. *)
Lemma dispatch_nothing_found handlers event w :
  handlers !! eventType event = None -> inherited (number := number) (eventType event) = None ->
  dispatch handlers event w
  = (Threw (Error ("No handler registered for event type: " ++ eventType event)), w).
Proof.
  intros Hown Hinherited. unfold handleWebhookEvent, WebhookHandler in *.
  rewrite Hown, Hinherited. reflexivity.
Qed.

(** C2: in the registry as the module is loaded, each of the six event
    types is mapped to its default handler, and dispatching an event of
    that type runs it: the event is written to the console under the
    handler's label and the call returns. *)
Theorem initial_registry_dispatches k event w :
  eventType event = key_name k ->
  initial !! key_name k = Some (default_handler console_log k) /\
  dispatch initial event w = (Returned tt, console_log (default_label k) event w).
Proof.
  intros Htype. split; [apply initial_lookup|].
  rewrite (dispatch_found initial (default_handler console_log k)).
  - reflexivity.
  - rewrite Htype. apply initial_lookup.
Qed.

(** C3: after [h1] and then [h2] are registered for a tag, an event of
    that tag is handled by [h2], whatever [h1] is, and the registry is
    the one in which [h1] was never registered: the second registration
    replaces the first. *)
Theorem last_registration_wins k (h1 h2 : Handler) handlers event w :
  eventType event = key_name k ->
  dispatch (registerWebhookHandler k h2 (registerWebhookHandler k h1 handlers)) event w
  = h2 event w /\
  registerWebhookHandler k h2 (registerWebhookHandler k h1 handlers)
  = registerWebhookHandler k h2 handlers.
Proof.
  intros Htype. unfold registerWebhookHandler. split.
  - apply dispatch_found. rewrite Htype. apply lookup_insert_eq.
  - apply insert_insert_eq.
Qed.

(** C8: when the registry has a handler for the event's type, dispatch
    is that handler's call on the event: it returns exactly when the
    handler returns, and a fault of the handler is the fault of
    dispatch, with the state the handler left. *)
Theorem dispatch_runs_handler handlers handler event w :
  handlers !! eventType event = Some handler ->
  dispatch handlers event w = handler event w /\
  (returns_normally (dispatch handlers event w) <-> returns_normally (handler event w)) /\
  (forall fault w', handler event w = (Threw fault, w') ->
                    dispatch handlers event w = (Threw fault, w')).
Proof.
  intros H. pose proof (dispatch_found handlers handler event w H) as Hrun.
  rewrite Hrun. repeat split; auto.
Qed.
End Registry.

Example event_taxonomy :
  map key_name all_keys
  = ["payment_intent.succeeded"; "payment_intent.failed"; "subscription.create";
     "subscription.past_due"; "subscription.paused"; "subscription.cancel"].
Proof. reflexivity. Qed.

(** C1: the code departs from the claim at an event whose type is the
    name of a member [userHandlers] inherits from [Object.prototype]. No
    handler is registered for [toString], yet the lookup finds the
    inherited method, calls it and returns: the error that names the
    type is not thrown. *)
Theorem dispatch_inherited_name :
  let event : value Z := VObj [("eventType", VStr "toString")] in
  userHandlers (number := Z) Fixtures.console_log !! Fixtures.eventType event = None /\
  handleWebhookEvent (number := Z) Fixtures.eventType (userHandlers Fixtures.console_log) event []
  = (Returned tt, []) /\
  handleWebhookEvent (number := Z) Fixtures.eventType (userHandlers Fixtures.console_log) event []
  <> (Threw (Error "No handler registered for event type: toString"), []).
Proof. repeat split. discriminate. Qed.

Lemma initial_registry_dispatches_witness :
  Fixtures.eventType Fixtures.cancel_event = key_name subscription_cancel /\
  handleWebhookEvent (number := Z) Fixtures.eventType (userHandlers Fixtures.console_log)
    Fixtures.cancel_event []
  = (Returned tt, [("Default SubscriptionCancel Handler:", Fixtures.cancel_event)]).
Proof.
  split; [reflexivity|].
  exact (proj2 (initial_registry_dispatches Fixtures.eventType Fixtures.console_log
                  subscription_cancel Fixtures.cancel_event [] eq_refl)).
Defined.

Lemma last_registration_wins_witness :
  Fixtures.eventType Fixtures.cancel_event = key_name subscription_cancel /\
  handleWebhookEvent Fixtures.eventType
    (registerWebhookHandler subscription_cancel (Fixtures.named_handler "h2")
       (registerWebhookHandler subscription_cancel (Fixtures.named_handler "h1")
          (userHandlers Fixtures.console_log)))
    Fixtures.cancel_event []
  = (Returned tt, [("h2", Fixtures.cancel_event)]).
Proof.
  split; [reflexivity|].
  exact (proj1 (last_registration_wins Fixtures.eventType subscription_cancel
                  (Fixtures.named_handler "h1") (Fixtures.named_handler "h2")
                  (userHandlers Fixtures.console_log) Fixtures.cancel_event [] eq_refl)).
Defined.

Lemma dispatch_runs_handler_witness :
  let handlers :=
    registerWebhookHandler subscription_cancel Fixtures.failing_handler
      (userHandlers Fixtures.console_log) in
  handlers !! Fixtures.eventType Fixtures.cancel_event = Some Fixtures.failing_handler /\
  handleWebhookEvent Fixtures.eventType handlers Fixtures.cancel_event []
  = (Threw (Error "handler failed"), []).
Proof.
  intros handlers. split; [reflexivity|].
  exact (proj1 (dispatch_runs_handler Fixtures.eventType handlers
                  Fixtures.failing_handler Fixtures.cancel_event [] eq_refl)).
Defined.

End DispatcherSpec.

(** ** The verifier *)

Module VerifierSpec.
Import Keys Json Runtime Verifier JsonFacts.

Section Verification.
Context {number World : Type} `{Svix : SvixLibrary number World}.
Implicit Types (env : gmap string string) (headers : gmap string header_value).
Implicit Types (payload secret : string) (w : World) (svix : Webhook).

(** With a secret and a constructed [Webhook], the call is decided by
    the library's checks and by the parse; whatever is thrown inside the
    [try] comes out as the one error of the [catch]. *)
Lemma verify_configured env payload headers secret w svix w1 :
  env !! secret_variable = Some secret -> secret <> EmptyString ->
  Webhook_new secret w = (Returned svix, w1) ->
  verifySvixSignature env payload headers w
  = match Webhook_authenticate svix payload (svixHeaders headers) w1 with
    | (Returned _, w2) =>
        match JSON_parse payload with
        | Returned event => (Returned (toCamelCase event), w2)
        | Threw _ => (Threw invalid_signature, w2)
        end
    | (Threw _, w2) => (Threw invalid_signature, w2)
    end.
Proof.
  intros Henv Hsecret Hnew. unfold verifySvixSignature, secret_variable in *.
  rewrite Henv. destruct secret as [|c secret]; [contradiction|].
  unfold bind at 1. rewrite Hnew.
  unfold try_catch, Webhook_verify, bind, ret, throw.
  destruct (Webhook_authenticate svix payload (svixHeaders headers) w1) as [[[]|cause] w2];
    [destruct (JSON_parse payload)|]; reflexivity.
Qed.

(** The constructor runs before the [try]: what it throws is not
    replaced. *)
Lemma constructor_fault_escapes env payload headers secret w cause w1 :
  env !! secret_variable = Some secret -> secret <> EmptyString ->
  Webhook_new secret w = (Threw cause, w1) ->
  verifySvixSignature env payload headers w = (Threw cause, w1).
Proof.
  intros Henv Hsecret Hnew. unfold verifySvixSignature, secret_variable in *.
  rewrite Henv. destruct secret as [|c secret]; [contradiction|].
  unfold bind at 1. rewrite Hnew. reflexivity.
Qed.


(** C7: when the signing secret is not configured (the setting is
    absent, or empty), every call throws the configuration error at
    once: the ambient state is untouched, whatever the library, the
    payload and the headers are, so nothing of the library was called. *)
Theorem missing_secret env payload headers w :
  env !! secret_variable = None \/ env !! secret_variable = Some EmptyString ->
  verifySvixSignature env payload headers w = (Threw (Error "Missing signing secret"), w).
Proof.
  unfold verifySvixSignature, secret_variable.
  intros [H|H]; rewrite H; reflexivity.
Qed.

(** C5: whatever makes the library's checks fail (a header missing or
    malformed, the timestamp out of tolerance, no matching signature),
    the call throws the same error, ["Invalid webhook signature"], in
    which nothing of the cause is left. *)
Theorem verification_failure_is_generic env payload headers secret w svix w1 cause w2 :
  env !! secret_variable = Some secret -> secret <> EmptyString ->
  Webhook_new secret w = (Returned svix, w1) ->
  Webhook_authenticate svix payload (svixHeaders headers) w1 = (Threw cause, w2) ->
  verifySvixSignature env payload headers w = (Threw (Error "Invalid webhook signature"), w2).
Proof.
  intros Henv Hsecret Hnew Hauth.
  rewrite (verify_configured env payload headers secret w svix w1) by assumption.
  rewrite Hauth. reflexivity.
Qed.

(** C6 (amended): when the signature verifies and the payload is not
    well-formed, the call throws the same ["Invalid webhook signature"]
    error as for a failed verification; the parse error is caught with
    the others. *)
Theorem parse_failure_is_generic env payload headers secret w svix w1 w2 cause :
  env !! secret_variable = Some secret -> secret <> EmptyString ->
  Webhook_new secret w = (Returned svix, w1) ->
  Webhook_authenticate svix payload (svixHeaders headers) w1 = (Returned tt, w2) ->
  JSON_parse payload = Threw cause ->
  verifySvixSignature env payload headers w = (Threw (Error "Invalid webhook signature"), w2).
Proof.
  intros Henv Hsecret Hnew Hauth Hparse.
  rewrite (verify_configured env payload headers secret w svix w1) by assumption.
  rewrite Hauth, Hparse. reflexivity.
Qed.

End Verification.

(** C6, as the claim states it, fails: the request below carries a
    signature that verifies and a payload cut short, and the call throws
    the invalid-signature error itself, the very error of a request signed
    with another key. *)
Lemma parse_failure_not_distinct :
  let headers := Fixtures.signed_headers Fixtures.secret Fixtures.payload_truncated in
  let forged := Fixtures.signed_headers "whsec_other" Fixtures.payload_truncated in
  let result := verifySvixSignature (Svix := Fixtures.svix) Fixtures.env Fixtures.payload_truncated headers [] in
  Webhook_authenticate (SvixLibrary := Fixtures.svix) Fixtures.secret Fixtures.payload_truncated
    (svixHeaders headers) [] = (Returned tt, []) /\
  JSON_parse (SvixLibrary := Fixtures.svix) Fixtures.payload_truncated
  = Threw (LibraryError "SyntaxError" "Unexpected end of JSON input") /\
  result = verifySvixSignature (Svix := Fixtures.svix) Fixtures.env Fixtures.payload_truncated forged [] /\
  ~ (exists e w', result = (Threw e, w') /\ e <> Error "Invalid webhook signature").
Proof.
  intros headers forged result.
  assert (Hresult : result = (Threw (Error "Invalid webhook signature"), []))
    by (vm_compute; reflexivity).
  split; [vm_compute; reflexivity|].
  split; [vm_compute; reflexivity|].
  split; [vm_compute; reflexivity|].
  intros (e & w' & He & Hdistinct). rewrite Hresult in He.
  apply Hdistinct. congruence.
Qed.

Lemma parse_failure_is_generic_witness :
  verifySvixSignature (Svix := Fixtures.svix) Fixtures.env Fixtures.payload_truncated
    (Fixtures.signed_headers Fixtures.secret Fixtures.payload_truncated) []
  = (Threw (Error "Invalid webhook signature"), []).
Proof.
  apply (parse_failure_is_generic (Svix := Fixtures.svix) Fixtures.env Fixtures.payload_truncated
           (Fixtures.signed_headers Fixtures.secret Fixtures.payload_truncated)
           Fixtures.secret [] Fixtures.secret [] []
           (LibraryError "SyntaxError" "Unexpected end of JSON input"));
    solve [reflexivity | discriminate].
Defined.

Lemma missing_secret_witness :
  verifySvixSignature (Svix := Fixtures.svix) ∅ Fixtures.payload_cancel
    (Fixtures.signed_headers Fixtures.secret Fixtures.payload_cancel) []
  = (Threw (Error "Missing signing secret"), []).
Proof.
  apply (missing_secret (Svix := Fixtures.svix) ∅ Fixtures.payload_cancel
           (Fixtures.signed_headers Fixtures.secret Fixtures.payload_cancel) []).
  left. reflexivity.
Defined.

Lemma verification_failure_is_generic_witness :
  verifySvixSignature (Svix := Fixtures.svix) Fixtures.env Fixtures.payload_cancel
    (Fixtures.signed_headers "whsec_other" Fixtures.payload_cancel) []
  = (Threw (Error "Invalid webhook signature"), []) /\
  verifySvixSignature (Svix := Fixtures.svix) Fixtures.env Fixtures.payload_cancel
    (delete "svix-id" (Fixtures.signed_headers Fixtures.secret Fixtures.payload_cancel)) []
  = (Threw (Error "Invalid webhook signature"), []) /\
  verifySvixSignature (Svix := Fixtures.svix) Fixtures.env Fixtures.payload_cancel
    (<["svix-timestamp" := Single "1600000000"]>
       (Fixtures.signed_headers Fixtures.secret Fixtures.payload_cancel)) []
  = (Threw (Error "Invalid webhook signature"), []).
Proof.
  split; [|split].
  - apply (verification_failure_is_generic (Svix := Fixtures.svix) Fixtures.env
             Fixtures.payload_cancel _ Fixtures.secret [] Fixtures.secret []
             (LibraryError "WebhookVerificationError" "No matching signature found") []);
      solve [reflexivity | discriminate].
  - apply (verification_failure_is_generic (Svix := Fixtures.svix) Fixtures.env
             Fixtures.payload_cancel _ Fixtures.secret [] Fixtures.secret []
             (LibraryError "WebhookVerificationError" "Missing required headers") []);
      solve [reflexivity | discriminate].
  - apply (verification_failure_is_generic (Svix := Fixtures.svix) Fixtures.env
             Fixtures.payload_cancel _ Fixtures.secret [] Fixtures.secret []
             (LibraryError "WebhookVerificationError" "Message timestamp too old") []);
      solve [reflexivity | discriminate].
Defined.



(** The scenario of the specification: the signed payload
    [{"event_type":"subscription.cancel","customer_id":"cus_1"}] verifies
    to [{eventType: 'subscription.cancel', customerId: 'cus_1'}], and
    dispatch hands that object to the handler registered for the tag. *)
Example verify_then_dispatch :
  let handlers :=
    Dispatcher.registerWebhookHandler Dispatcher.subscription_cancel
      (Fixtures.named_handler "on cancel") (Dispatcher.userHandlers Fixtures.console_log) in
  (event <- verifySvixSignature (Svix := Fixtures.svix) Fixtures.env Fixtures.payload_cancel
              (Fixtures.signed_headers Fixtures.secret Fixtures.payload_cancel) ;;
   Dispatcher.handleWebhookEvent Fixtures.eventType handlers event) []
  = (Returned tt, [("on cancel", Fixtures.cancel_event)]).
Proof. vm_compute. reflexivity. Qed.

End VerifierSpec.

(** ** Further properties of the key transforms *)

Module KeyShapeFacts.
Import Keys KeyShapes KeyFacts.

Lemma lowered_not_upper c :
  is_upper (toLowerCase_char c) = false /\ toLowerCase_char (toLowerCase_char c) = toLowerCase_char c.
Proof. by_cases_on c. Qed.

Lemma raised_not_lower c :
  is_lower c = true ->
  is_lower (toUpperCase_letter c) = false /\ (toUpperCase_letter c =? "_")%char = false.
Proof. by_cases_on c. Qed.


Lemma snakeKey_cons c k :
  snakeKey (String c k)
  = if is_upper c then String "_" (String (toLowerCase_char c) (snakeKey k))
    else String (toLowerCase_char c) (snakeKey k).
Proof. destruct (is_upper c) eqn:H; [apply snakeKey_upper | apply snakeKey_other]; exact H. Qed.

Lemma snakeKey_no_upper k : no_upper (snakeKey k) = true.
Proof.
  unfold no_upper. induction k as [|c k IH]; [reflexivity|].
  rewrite snakeKey_cons. destruct (lowered_not_upper c) as [Hc _].
  destruct (is_upper c); simpl; rewrite Hc, IH; reflexivity.
Qed.

Lemma snakeKey_idempotent k : snakeKey (snakeKey k) = snakeKey k.
Proof.
  induction k as [|c k IH]; [reflexivity|].
  rewrite snakeKey_cons. destruct (lowered_not_upper c) as [Hup Hfix].
  destruct (is_upper c).
  - rewrite (snakeKey_other "_") by reflexivity.
    rewrite snakeKey_other by exact Hup. rewrite Hfix, IH. reflexivity.
  - rewrite snakeKey_other by exact Hup. rewrite Hfix, IH. reflexivity.
Qed.


Lemma no_match_cons_other c k :
  (c =? "_")%char = false -> no_separator_match (String c k) = no_separator_match k.
Proof. intros H. destruct k as [|d k]; simpl; [reflexivity|]. rewrite H. reflexivity. Qed.

Lemma no_match_cons_separator d k :
  is_lower d = false ->
  no_separator_match (String "_" (String d k)) = no_separator_match (String d k).
Proof. intros H. cbn [no_separator_match]. rewrite H. reflexivity. Qed.

(** Where nothing matches, [camelKey] changes nothing. *)
Lemma camelKey_fixed k : no_separator_match k = true -> camelKey k = k.
Proof.
  induction k as [|c k IH]; [reflexivity|].
  destruct k as [|d k]; [reflexivity|].
  cbn [no_separator_match camelKey].
  intros [Hhead Hrest]%andb_prop. apply negb_true_iff in Hhead.
  rewrite Hhead. f_equal. apply IH, Hrest.
Qed.

(** The first character [camelKey] writes is a raised letter or the
    first character it read. *)
Lemma camelKey_head d k :
  is_lower d = false ->
  exists d' k', camelKey (String d k) = String d' k' /\ is_lower d' = false.
Proof.
  intros Hd. destruct k as [|e k]; [exists d, EmptyString; auto|].
  cbn [camelKey]. destruct ((d =? "_")%char && is_lower e) eqn:Hm.
  - apply andb_prop in Hm as [_ He].
    destruct (raised_not_lower e He) as [Hlow _]. eauto.
  - eauto.
Qed.

Lemma camelKey_step c d k :
  camelKey (String c (String d k))
  = if (c =? "_")%char && is_lower d then String (toUpperCase_letter d) (camelKey k)
    else String c (camelKey (String d k)).
Proof. reflexivity. Qed.

Lemma camelKey_no_match_bounded n :
  forall k, String.length k <= n -> no_separator_match (camelKey k) = true.
Proof.
  induction n as [|n IH]; intros k Hlen.
  - destruct k; [reflexivity | simpl in Hlen; lia].
  - destruct k as [|c [|d k]]; [reflexivity | reflexivity |].
    simpl in Hlen. rewrite camelKey_step.
    destruct ((c =? "_")%char && is_lower d) eqn:Hm.
    + apply andb_prop in Hm as [_ Hd].
      destruct (raised_not_lower d Hd) as [_ Hsep].
      rewrite no_match_cons_other by exact Hsep. apply IH. lia.
    + assert (Hrest : no_separator_match (camelKey (String d k)) = true)
        by (apply IH; simpl; lia).
      destruct (c =? "_")%char eqn:Hc.
      * apply Ascii.eqb_eq in Hc. subst c. simpl in Hm.
        destruct (camelKey_head d k Hm) as [d' [k' [Heq Hd']]].
        rewrite Heq in *. rewrite no_match_cons_separator by exact Hd'. exact Hrest.
      * rewrite no_match_cons_other by exact Hc. exact Hrest.
Qed.

Lemma camelKey_no_match k : no_separator_match (camelKey k) = true.
Proof. apply (camelKey_no_match_bounded (String.length k)). lia. Qed.

Lemma camelKey_idempotent k : camelKey (camelKey k) = camelKey k.
Proof. apply camelKey_fixed, camelKey_no_match. Qed.

End KeyShapeFacts.

(** ** Further properties of the converters *)

Module ConverterFacts.
Import Keys KeyShapes Json JsonFacts KeyFacts KeyShapeFacts.

Section Folds.
Context {A B : Type} (f : string -> string) (g : B -> A).
Implicit Types (acc : list (string * A)) (props : list (string * B)).

Abbreviation step := (fun acc '(key, x) => obj_set acc (f key) (g x)).

Lemma obj_get_is_Some acc key : (exists x, obj_get acc key = Some x) <-> In key (keys acc).
Proof.
  induction acc as [|[k y] acc IH]; simpl.
  - split; [intros [x Hx]; discriminate | contradiction].
  - destruct (String.eqb_spec k key) as [->|Hne].
    + split; eauto.
    + rewrite IH. split; [auto | intros [H|H]; [contradiction | exact H]].
Qed.

Lemma obj_set_Forall (P : string * A -> Prop) acc key x :
  Forall P acc -> P (key, x) -> Forall P (obj_set acc key x).
Proof.
  intros Hacc Hx. induction Hacc as [|[k y] acc Hy Hacc IH]; simpl.
  - constructor; [exact Hx | constructor].
  - destruct (String.eqb_spec k key) as [->|Hne]; constructor; assumption.
Qed.

Lemma obj_set_NoDup acc key x : List.NoDup (keys acc) -> List.NoDup (keys (obj_set acc key x)).
Proof.
  intros Hnd. rewrite keys_obj_set.
  destruct (existsb (String.eqb key) (keys acc)) eqn:Hin; [exact Hnd|].
  apply List.NoDup_app; [exact Hnd | repeat constructor; simpl; tauto |].
  intros k Hk [Heq|[]]. subst k.
  assert (Hex : existsb (String.eqb key) (keys acc) = true)
    by (apply existsb_exists; exists key; split; [exact Hk | apply String.eqb_refl]).
  congruence.
Qed.

Lemma In_keys_obj_set acc key x k : In k (keys (obj_set acc key x)) <-> In k (keys acc) \/ k = key.
Proof.
  rewrite keys_obj_set. destruct (existsb (String.eqb key) (keys acc)) eqn:Hin.
  - apply existsb_exists in Hin as [k' [Hk' ->%String.eqb_eq]].
    split; [auto | intros [H| ->]; assumption].
  - rewrite in_app_iff. simpl. intuition congruence.
Qed.

Lemma fold_Forall (P : string * A -> Prop) props acc :
  Forall P acc -> Forall (fun q => P (f (fst q), g (snd q))) props ->
  Forall P (fold_left step props acc).
Proof.
  intros Hacc Hprops. revert acc Hacc.
  induction Hprops as [|[k x] props Hx _ IH]; simpl; intros acc Hacc; [exact Hacc|].
  apply IH, obj_set_Forall; assumption.
Qed.

Lemma fold_NoDup props acc :
  List.NoDup (keys acc) -> List.NoDup (keys (fold_left step props acc)).
Proof.
  revert acc. induction props as [|[k x] props IH]; simpl; intros acc Hacc; [exact Hacc|].
  apply IH, obj_set_NoDup, Hacc.
Qed.

Lemma fold_In_keys props acc k :
  In k (keys (fold_left step props acc)) <-> In k (keys acc) \/ In k (map f (keys props)).
Proof.
  revert acc. induction props as [|[k' x] props IH]; simpl; intros acc; [tauto|].
  rewrite IH, In_keys_obj_set. intuition congruence.
Qed.
End Folds.

Section Converters.
Context {number : Type}.
Implicit Types (v : value number) (f : string -> string) (p q : string -> bool).
Implicit Types (props : list (string * value number)).

(** Whatever the input, a converted object has each key once. *)
Lemma convert_keys_well_formed f v : well_formed (convert_keys f v) = true.
Proof.
  unfold well_formed.
  induction v as [ | | | | | items IH | props IH ] using value_induction; try reflexivity.
  - simpl convert_keys. rewrite renames_apart_arr, List.Forall_forall in *.
    intros y [x [<- Hin]]%in_map_iff. apply IH, Hin.
  - simpl convert_keys. rewrite renames_apart_obj, map_id. split.
    + apply fold_NoDup. constructor.
    + apply (fold_Forall f (convert_keys f)
               (fun r => renames_apart (fun k => k) (snd r) = true)); [constructor|].
      eapply List.Forall_impl; [|exact IH]. intros [k x] Hx. exact Hx.
Qed.

(** The keys of a converted value are images of the keys of the input. *)
Lemma convert_keys_all_keys f p q v :
  (forall k, q k = true -> p (f k) = true) ->
  all_keys q v = true -> all_keys p (convert_keys f v) = true.
Proof.
  intros Hpq.
  induction v as [ | | | | | items IH | props IH ] using value_induction; try reflexivity.
  - rewrite all_keys_arr. intros Hitems. simpl convert_keys.
    rewrite all_keys_arr, List.Forall_forall in *.
    intros y [x [<- Hin]]%in_map_iff. apply IH; auto.
  - rewrite all_keys_obj. intros Hprops. simpl convert_keys. rewrite all_keys_obj.
    apply (fold_Forall f (convert_keys f)
             (fun r => p (fst r) = true /\ all_keys p (snd r) = true)); [constructor|].
    rewrite List.Forall_forall in *. intros [k x] Hin.
    destruct (Hprops (k, x) Hin) as [Hk Hx]. simpl in *. split; [apply Hpq, Hk|].
    apply (IH (k, x) Hin), Hx.
Qed.

Lemma all_keys_any v : all_keys (fun _ => true) v = true.
Proof.
  induction v as [ | | | | | items IH | props IH ] using value_induction; try reflexivity.
  - rewrite all_keys_arr. exact IH.
  - rewrite all_keys_obj. eapply List.Forall_impl; [|exact IH]. intros [k x] Hx. auto.
Qed.

Lemma convert_keys_image f p v :
  (forall k, p (f k) = true) -> all_keys p (convert_keys f v) = true.
Proof.
  intros Hp. apply (convert_keys_all_keys f p (fun _ => true)); [auto | apply all_keys_any].
Qed.

Lemma convert_keys_idempotent f v :
  (forall k, f (f k) = f k) -> convert_keys f (convert_keys f v) = convert_keys f v.
Proof.
  intros Hf. set (p := fun k => String.eqb (f k) k).
  assert (Hkeys : all_keys p (convert_keys f v) = true)
    by (apply convert_keys_image; intros k; apply String.eqb_eq, Hf).
  assert (Hfix : forall k, p k = true -> f k = k) by (intros k; apply String.eqb_eq).
  destruct (renames_apart_invertible f (fun k => k) p (convert_keys f v) Hfix Hkeys
              (convert_keys_well_formed f v)) as [Hapart _].
  rewrite (convert_keys_apart f _ Hapart).
  apply (rename_keys_fixed f p); assumption.
Qed.
End Converters.

(** *** What [toSnakeCase] keeps whatever its writes meet *)

Section SnakeCase.
Context {number : Type}.
Implicit Types (v : value number) (p : string -> bool).
Implicit Types (props : list (string * value number)).
Implicit Types (acc : list (string * value number) * bool) (x : value number * bool).

Abbreviation snake_step :=
  (fun acc '(key, x) => assign acc (snakeKey key) (toSnakeCase_reaching x)).

(** A write leaves the own properties as they are or sets one. *)
Lemma assign_result acc key x :
  fst (assign acc key x) = fst acc \/ fst (assign acc key x) = obj_set (fst acc) key (fst x).
Proof.
  destruct acc as [result chain]. unfold assign.
  destruct (String.eqb key "__proto__" && negb (existsb (String.eqb key) (keys result)) && chain);
    [|right; reflexivity].
  left. destruct (fst x); reflexivity.
Qed.

Lemma fold_snake_Forall (P : string * value number -> Prop) props acc :
  Forall P (fst acc) ->
  Forall (fun r => P (snakeKey (fst r), toSnakeCase (snd r))) props ->
  Forall P (fst (fold_left snake_step props acc)).
Proof.
  intros Hacc Hprops. revert acc Hacc.
  induction Hprops as [|[k x] props Hx _ IH]; simpl; intros acc Hacc; [exact Hacc|].
  apply IH. destruct (assign_result acc (snakeKey k) (toSnakeCase_reaching x)) as [-> | ->].
  - exact Hacc.
  - apply obj_set_Forall; assumption.
Qed.

Lemma fold_snake_NoDup props acc :
  List.NoDup (keys (fst acc)) -> List.NoDup (keys (fst (fold_left snake_step props acc))).
Proof.
  revert acc. induction props as [|[k x] props IH]; simpl; intros acc Hacc; [exact Hacc|].
  apply IH. destruct (assign_result acc (snakeKey k) (toSnakeCase_reaching x)) as [-> | ->].
  - exact Hacc.
  - apply (obj_set_NoDup (fun k => k)), Hacc.
Qed.

Lemma toSnakeCase_well_formed v : well_formed (toSnakeCase v) = true.
Proof.
  unfold well_formed.
  induction v as [ | | | | | items IH | props IH ] using value_induction; try reflexivity.
  - rewrite toSnakeCase_arr. rewrite renames_apart_arr, List.Forall_forall in *.
    intros y [x [<- Hin]]%in_map_iff. apply IH, Hin.
  - rewrite toSnakeCase_obj. rewrite renames_apart_obj, map_id. split.
    + apply fold_snake_NoDup. constructor.
    + apply (fold_snake_Forall (fun r => renames_apart (fun k => k) (snd r) = true));
        [constructor|].
      eapply List.Forall_impl; [|exact IH]. intros [k x] Hx. exact Hx.
Qed.

Lemma toSnakeCase_image p v :
  (forall k, p (snakeKey k) = true) -> all_keys p (toSnakeCase v) = true.
Proof.
  intros Hp.
  induction v as [ | | | | | items IH | props IH ] using value_induction; try reflexivity.
  - rewrite toSnakeCase_arr. rewrite all_keys_arr, List.Forall_forall in *.
    intros y [x [<- Hin]]%in_map_iff. apply IH, Hin.
  - rewrite toSnakeCase_obj. rewrite all_keys_obj.
    apply (fold_snake_Forall (fun r => p (fst r) = true /\ all_keys p (snd r) = true));
      [constructor|].
    eapply List.Forall_impl; [|exact IH]. intros [k x] Hx. simpl in *. auto.
Qed.

Lemma obj_get_assign_other acc key x K :
  key <> K -> obj_get (fst (assign acc key x)) K = obj_get (fst acc) K.
Proof.
  intros Hne. destruct (assign_result acc key x) as [-> | ->]; [reflexivity|].
  apply obj_get_set_other, Hne.
Qed.

Lemma fold_snake_get_other props acc K :
  Forall (fun r => snakeKey (fst r) <> K) props ->
  obj_get (fst (fold_left snake_step props acc)) K = obj_get (fst acc) K.
Proof.
  intros H. revert acc. induction H as [|[k x] props Hk _ IH]; simpl; intros acc; [reflexivity|].
  rewrite IH. apply obj_get_assign_other, Hk.
Qed.

Lemma In_keys_assign acc key x K :
  K <> "__proto__" ->
  In K (keys (fst (assign acc key x))) <-> In K (keys (fst acc)) \/ K = key.
Proof.
  intros HK. destruct (String.eqb_spec key "__proto__") as [->|Hkey].
  - destruct (assign_result acc "__proto__" x) as [-> | ->].
    + intuition congruence.
    + apply (In_keys_obj_set (fun k => k)).
  - rewrite assign_plain by exact Hkey. apply (In_keys_obj_set (fun k => k)).
Qed.

Lemma fold_snake_In_keys props acc K :
  K <> "__proto__" ->
  In K (keys (fst (fold_left snake_step props acc)))
  <-> In K (keys (fst acc)) \/ In K (map snakeKey (keys props)).
Proof.
  intros HK. revert acc. induction props as [|[k x] props IH]; simpl; intros acc; [tauto|].
  rewrite IH, In_keys_assign by exact HK. intuition congruence.
Qed.

(** A value [toSnakeCase] has nothing to do on: its keys are already
    what they are renamed to, and none is [__proto__]. *)
Lemma toSnakeCase_fixed v :
  well_formed v = true -> all_keys (fun k => String.eqb (snakeKey k) k) v = true ->
  no_proto_key v = true -> toSnakeCase v = v.
Proof.
  intros Hwf Hfixed Hproto.
  set (p := fun k => String.eqb (snakeKey k) k && negb (String.eqb k "__proto__")).
  assert (Hp : all_keys p v = true).
  { clear Hwf. unfold no_proto_key in Hproto.
    induction v as [ | | | | | items IH | props IH ] using value_induction; try reflexivity.
    - rewrite all_keys_arr in *. rewrite !List.Forall_forall in *. auto.
    - rewrite all_keys_obj in *. rewrite !List.Forall_forall in *.
      intros [k x] Hin. destruct (Hfixed (k, x) Hin) as [Hk Hx].
      destruct (Hproto (k, x) Hin) as [Hk' Hx']. simpl in *. split.
      + unfold p. rewrite Hk, Hk'. reflexivity.
      + apply (IH (k, x) Hin); assumption. }
  assert (Hid : forall k, p k = true -> snakeKey k = k)
    by (intros k [Hk _]%andb_prop; apply String.eqb_eq, Hk).
  assert (Hplain : plain_writes v = true).
  { apply (all_keys_impl p); [|exact Hp]. intros k Hk.
    rewrite (Hid k Hk). apply andb_prop in Hk as [_ Hk]. exact Hk. }
  destruct (renames_apart_invertible snakeKey (fun k => k) p v Hid Hp Hwf) as [Hapart _].
  rewrite toSnakeCase_convert by exact Hplain.
  rewrite (convert_keys_apart _ _ Hapart).
  apply (rename_keys_fixed snakeKey p); assumption.
Qed.
End SnakeCase.

End ConverterFacts.

Module ConverterExtras.
Import Keys KeyShapes Json JsonFacts KeyFacts KeyShapeFacts ConverterFacts.

Section Converters.
Context {number : Type}.
Implicit Types (v x : value number) (props before after : list (string * value number)).

(** X1: whatever the input, no key of [toSnakeCase]'s output has a
    character of [A-Z]. *)
Theorem toSnakeCase_keys_lowercase v : all_keys no_upper (toSnakeCase v) = true.
Proof. apply toSnakeCase_image, snakeKey_no_upper. Qed.

(** X2: whatever the input, no key of [toCamelCase]'s output has an
    underscore directly followed by a character of [a-z]. *)
Theorem toCamelCase_keys_converted v : all_keys no_separator_match (toCamelCase v) = true.
Proof. rewrite toCamelCase_convert. apply convert_keys_image, camelKey_no_match. Qed.

(** X3: whatever the input, the converters return an object value: each
    mapping of the output has each key once, also where keys of the input
    collide. *)
Theorem converters_well_formed v :
  well_formed (toSnakeCase v) = true /\ well_formed (toCamelCase v) = true.
Proof.
  split; [apply toSnakeCase_well_formed|].
  rewrite toCamelCase_convert. apply convert_keys_well_formed.
Qed.

(** X4: [toSnakeCase] is idempotent wherever its first output has no own
    key [__proto__]: a second pass changes nothing, also where the first
    pass dropped a key that was renamed to [__proto__]. (An own key
    [__proto__] in the output, which arises only after [null] or an
    object out of the accessor's reach was made a prototype, is met by
    the setter on the second pass.) *)
Theorem toSnakeCase_idempotent v :
  no_proto_key (toSnakeCase v) = true -> toSnakeCase (toSnakeCase v) = toSnakeCase v.
Proof.
  intros Hproto. apply toSnakeCase_fixed; [apply toSnakeCase_well_formed | | exact Hproto].
  apply toSnakeCase_image. intros k. apply String.eqb_eq, snakeKey_idempotent.
Qed.

(** X5: [toCamelCase] is idempotent on every value. *)
Theorem toCamelCase_idempotent v : toCamelCase (toCamelCase v) = toCamelCase v.
Proof. rewrite !toCamelCase_convert. apply convert_keys_idempotent, camelKey_idempotent. Qed.

(** X6: where several keys of a mapping are renamed to the same key,
    other than [__proto__], the output holds under that key the converted
    value of the last of them. ([toCamelCase] renames no key to
    [__proto__].) *)
Theorem collision_last_wins before key x after :
  (snakeKey key <> "__proto__" ->
   Forall (fun r => snakeKey (fst r) <> snakeKey key) after ->
   field (toSnakeCase (VObj (before ++ (key, x) :: after))) (snakeKey key)
   = Some (toSnakeCase x)) /\
  (Forall (fun r => camelKey (fst r) <> camelKey key) after ->
   field (toCamelCase (VObj (before ++ (key, x) :: after))) (camelKey key)
   = Some (toCamelCase x)).
Proof.
  split.
  - intros Hkey Hafter. rewrite toSnakeCase_obj. simpl field.
    rewrite fold_left_app. simpl fold_left.
    rewrite fold_snake_get_other by exact Hafter.
    rewrite assign_plain by exact Hkey. simpl fst. apply obj_get_set_same.
  - intros Hafter. simpl. apply (obj_get_fold_last camelKey toCamelCase), Hafter.
Qed.

(** X7: the keys of a converted mapping, [__proto__] apart, are exactly
    the renamed keys of the input mapping: no key is dropped without its
    renamed key staying, and none is invented. For [toCamelCase], which
    renames no key to [__proto__], this holds of every key. *)
Theorem converted_keys props K :
  (K <> "__proto__" ->
   ((exists x, field (toSnakeCase (VObj props)) K = Some x)
    <-> In K (map snakeKey (keys props)))) /\
  ((exists x, field (toCamelCase (VObj props)) K = Some x) <-> In K (map camelKey (keys props))).
Proof.
  split.
  - intros HK. rewrite toSnakeCase_obj. simpl field. rewrite obj_get_is_Some.
    rewrite fold_snake_In_keys by exact HK. simpl. tauto.
  - simpl. rewrite obj_get_is_Some.
    rewrite (fold_In_keys camelKey toCamelCase). simpl. tauto.
Qed.


(** X27: on an object value whose keys are all in [[a-z0-9_]*] and none
    of them [__proto__], [toSnakeCase] after [toCamelCase] is the
    identity: also for keys with a leading, trailing or doubled
    underscore, such as the [_destroy] of a price update. *)
Theorem round_trip_separated v :
  well_formed v = true -> all_keys is_separated v = true -> no_proto_key v = true ->
  toSnakeCase (toCamelCase v) = v.
Proof.
  intros Hwf Hkeys Hproto.
  destruct (renames_apart_invertible camelKey snakeKey is_separated v
              snakeKey_camelKey Hkeys Hwf) as [Hthere Hback].
  rewrite toCamelCase_convert, (convert_keys_apart _ _ Hthere).
  assert (Hplain : plain_writes (rename_keys camelKey v) = true).
  { apply all_keys_rename.
    apply (all_keys_impl (fun k => is_separated k && negb (String.eqb k "__proto__")));
      [|apply all_keys_and; assumption].
    intros k [Hk Hother]%andb_prop. rewrite snakeKey_camelKey by exact Hk. exact Hother. }
  rewrite toSnakeCase_convert by exact Hplain.
  rewrite (convert_keys_apart _ _ Hback), rename_keys_compose.
  apply (rename_keys_fixed _ is_separated); [apply snakeKey_camelKey | exact Hkeys].
Qed.
End Converters.

Lemma round_trip_separated_witness :
  toSnakeCase (toCamelCase (VObj [("id", VStr "price_1"); ("_destroy", VBool (number := Z) true)]))
  = VObj [("id", VStr "price_1"); ("_destroy", VBool true)].
Proof.
  apply (round_trip_separated (VObj [("id", VStr "price_1"); ("_destroy", VBool true)]));
    reflexivity.
Defined.

Lemma collision_last_wins_witness :
  field (toSnakeCase Fixtures.colliding) "a_b" = Some (VNum 2%Z) /\
  field (toCamelCase (VObj [("a_b", VNum 1%Z); ("aB", VNum 2%Z)])) "aB" = Some (VNum 2%Z).
Proof.
  split.
  - apply (proj1 (collision_last_wins [("aB", VNum 1%Z)] "a_b" (VNum 2%Z) []));
      [discriminate | constructor].
  - apply (proj2 (collision_last_wins [("a_b", VNum 1%Z)] "aB" (VNum 2%Z) [])). constructor.
Defined.

Lemma toSnakeCase_idempotent_witness :
  no_proto_key (toSnakeCase (VObj [("__proto__", VNum 1%Z); ("imageUrl", VNull)])) = true /\
  toSnakeCase (toSnakeCase (VObj [("__proto__", VNum 1%Z); ("imageUrl", VNull)]))
  = toSnakeCase (VObj [("__proto__", VNum 1%Z); ("imageUrl", VNull)]).
Proof.
  split; [reflexivity|].
  apply (toSnakeCase_idempotent (VObj [("__proto__", VNum 1%Z); ("imageUrl", VNull)])).
  reflexivity.
Defined.

Lemma converted_keys_witness :
  (exists x, field (toSnakeCase Fixtures.product) "cancel_url" = Some x)
  <-> In "cancel_url" (map snakeKey ["name"; "pricesAttributes"; "cancelUrl"]).
Proof.
  apply (proj1 (converted_keys
                  [("name", VStr "Producto");
                   ("pricesAttributes",
                    VArr [VObj [("currency", VStr "GTQ"); ("chargeType", VStr "one_time");
                                ("amountInCents", VNum 1000%Z)]]);
                   ("cancelUrl", VNull)] "cancel_url")).
  discriminate.
Defined.

(** Where the first output has an own key [__proto__], a second pass
    meets the setter and drops it. *)
Example toSnakeCase_not_idempotent :
  toSnakeCase (VObj [("__proto__", VNull); ("_Proto__", VNum 1%Z)])
  = VObj [("__proto__", VNum 1%Z)] /\
  toSnakeCase (VObj [("__proto__", VNum 1%Z)]) = VObj [].
Proof. split; reflexivity. Qed.


End ConverterExtras.

(** ** Further properties of the dispatcher *)

Module DispatcherExtras.
Import Json Runtime Dispatcher DispatcherSpec.

Lemma key_name_injective k1 k2 : key_name k1 = key_name k2 -> k1 = k2.
Proof. destruct k1, k2; simpl; intros H; try reflexivity; discriminate H. Qed.

Section Registry.
Context {number World Event : Type}.
Variable eventType : Event -> string.
Variable console_log : string -> Event -> World -> World.

Abbreviation Handler := (WebhookHandler (number := number) (World := World) (Event := Event)).
Abbreviation dispatch := (handleWebhookEvent (number := number) (World := World) eventType).

Implicit Types (handlers : gmap string Handler) (handler : Handler) (event : Event).
Implicit Types (k : EventTypeKey) (w : World).

(** X9: registrations for two different event types commute: the
    registry does not remember their order. *)
Theorem registrations_commute k1 k2 (h1 h2 : Handler) handlers :
  k1 <> k2 ->
  registerWebhookHandler k1 h1 (registerWebhookHandler k2 h2 handlers)
  = registerWebhookHandler k2 h2 (registerWebhookHandler k1 h1 handlers).
Proof.
  intros Hne. unfold registerWebhookHandler. apply insert_insert_ne.
  intros Heq. apply Hne, key_name_injective, Heq.
Qed.

(** X10: registering a handler for one event type changes nothing for
    events of another type: they are dispatched as before. *)
Theorem registration_is_local k handler handlers event w :
  eventType event <> key_name k ->
  dispatch (registerWebhookHandler k handler handlers) event w = dispatch handlers event w.
Proof.
  intros Hne. unfold handleWebhookEvent, registerWebhookHandler, WebhookHandler in *.
  rewrite lookup_insert_ne by congruence. reflexivity.
Qed.

(** X11: a registry the module can reach never lacks one of the six event
    types: an event of such a type is always handed to a handler, so the
    error "No handler registered" does not arise from the lookup. *)
Theorem known_types_stay_registered handlers k event w :
  reachable console_log handlers -> eventType event = key_name k ->
  exists handler,
    handlers !! key_name k = Some handler /\ dispatch handlers event w = handler event w.
Proof.
  intros Hreach Htype.
  destruct (proj2 (reachable_domain console_log handlers Hreach (key_name k))) as [handler Hk];
    [eauto|].
  exists handler. split; [exact Hk|].
  apply dispatch_found. rewrite Htype. exact Hk.
Qed.

(** X26: for an event whose type is neither registered nor the name of a
    member [userHandlers] inherits from [Object.prototype], dispatch
    throws the error that names the type and leaves the ambient state as
    it was, so no handler ran; and a tag that is not one of the six keys
    of [EventTypeMapping] is not an own property of any registry the
    module can reach. *)
Theorem dispatch_unknown_type :
  (forall handlers event w,
      handlers !! eventType event = None ->
      inherited (number := number) (eventType event) = None ->
      dispatch handlers event w
      = (Threw (Error ("No handler registered for event type: " ++ eventType event)), w)) /\
  (forall handlers t,
      reachable console_log handlers -> (forall k, key_name k <> t) -> handlers !! t = None).
Proof.
  split.
  - intros handlers event w. apply dispatch_nothing_found.
  - intros handlers t Hreach Hnot.
    apply eq_None_not_Some. rewrite (reachable_domain console_log handlers Hreach).
    intros [k Hk]. exact (Hnot k Hk).
Qed.
End Registry.

Lemma dispatch_unknown_type_witness :
  handleWebhookEvent (number := Z) Fixtures.eventType (userHandlers Fixtures.console_log)
    Fixtures.resumed_event []
  = (Threw (Error "No handler registered for event type: subscription.resumed"), []) /\
  userHandlers (number := Z) Fixtures.console_log !! "subscription.resumed" = None.
Proof.
  destruct (dispatch_unknown_type (number := Z) Fixtures.eventType Fixtures.console_log)
    as [Hthrows Habsent].
  split.
  - apply (Hthrows (userHandlers Fixtures.console_log) Fixtures.resumed_event []); reflexivity.
  - apply Habsent; [constructor | intros k; destruct k; discriminate].
Defined.

Lemma registrations_commute_witness :
  registerWebhookHandler subscription_cancel (Fixtures.named_handler "a")
    (registerWebhookHandler subscription_paused (Fixtures.named_handler "b")
       (userHandlers Fixtures.console_log))
  = registerWebhookHandler subscription_paused (Fixtures.named_handler "b")
      (registerWebhookHandler subscription_cancel (Fixtures.named_handler "a")
         (userHandlers Fixtures.console_log)).
Proof.
  apply (registrations_commute subscription_cancel subscription_paused). discriminate.
Defined.

Lemma registration_is_local_witness :
  handleWebhookEvent Fixtures.eventType
    (registerWebhookHandler subscription_paused (Fixtures.named_handler "b")
       (userHandlers Fixtures.console_log))
    Fixtures.cancel_event []
  = (Returned tt, [("Default SubscriptionCancel Handler:", Fixtures.cancel_event)]).
Proof.
  rewrite (registration_is_local Fixtures.eventType subscription_paused
             (Fixtures.named_handler "b") (userHandlers Fixtures.console_log)
             Fixtures.cancel_event []).
  - reflexivity.
  - discriminate.
Defined.

Lemma known_types_stay_registered_witness :
  exists handler,
    registerWebhookHandler subscription_cancel (Fixtures.named_handler "a")
      (userHandlers Fixtures.console_log) !! key_name subscription_cancel = Some handler /\
    handleWebhookEvent Fixtures.eventType
      (registerWebhookHandler subscription_cancel (Fixtures.named_handler "a")
         (userHandlers Fixtures.console_log))
      Fixtures.cancel_event []
    = handler Fixtures.cancel_event [].
Proof.
  apply (known_types_stay_registered Fixtures.eventType Fixtures.console_log
           (registerWebhookHandler subscription_cancel (Fixtures.named_handler "a")
              (userHandlers Fixtures.console_log))
           subscription_cancel Fixtures.cancel_event []).
  - repeat constructor.
  - reflexivity.
Defined.

End DispatcherExtras.

(** ** Further properties of the verifier *)

Module VerifierExtras.
Import Keys KeyShapes Json Runtime Verifier JsonFacts KeyShapeFacts ConverterFacts VerifierSpec.

Section Verification.
Context {number World : Type} `{Svix : SvixLibrary number World}.
Implicit Types (env : gmap string string) (headers : gmap string header_value).
Implicit Types (payload secret : string) (w : World) (event : value number).

(** The call, once the secret is known to be configured. *)
Lemma verify_with_secret env payload headers secret w :
  env !! secret_variable = Some secret -> secret <> EmptyString ->
  verifySvixSignature env payload headers w
  = match Webhook_new secret w with
    | (Returned svix, w1) =>
        match Webhook_authenticate svix payload (svixHeaders headers) w1 with
        | (Returned _, w2) =>
            match JSON_parse payload with
            | Returned parsed => (Returned (toCamelCase parsed), w2)
            | Threw _ => (Threw invalid_signature, w2)
            end
        | (Threw _, w2) => (Threw invalid_signature, w2)
        end
    | (Threw cause, w1) => (Threw cause, w1)
    end.
Proof.
  intros Henv Hsecret.
  destruct (Webhook_new secret w) as [[svix|cause] w1] eqn:Hnew.
  - apply (verify_configured env payload headers secret w svix w1); assumption.
  - apply (constructor_fault_escapes env payload headers secret w cause w1); assumption.
Qed.

Lemma verify_without_secret env payload headers w :
  Config.missing (env !! secret_variable) = true ->
  verifySvixSignature env payload headers w = (Threw (Error "Missing signing secret"), w).
Proof.
  unfold verifySvixSignature, secret_variable.
  destruct (env !! "RECURRENTE_SVIX_SIGNING_SECRET") as [[|c secret]|]; simpl;
    [reflexivity | discriminate | reflexivity].
Qed.

Lemma secret_cases env :
  Config.missing (env !! secret_variable) = true \/
  exists secret, env !! secret_variable = Some secret /\ secret <> EmptyString.
Proof.
  destruct (env !! secret_variable) as [[|c secret]|]; simpl; auto.
  right. eexists. split; [reflexivity | discriminate].
Qed.

(** What a returned event tells: the secret was configured, the library
    accepted the request and the payload parsed. *)
Lemma verify_returned env payload headers w event w' :
  verifySvixSignature env payload headers w = (Returned event, w') ->
  exists secret svix w1 parsed,
    env !! secret_variable = Some secret /\ secret <> EmptyString /\
    Webhook_new secret w = (Returned svix, w1) /\
    Webhook_authenticate svix payload (svixHeaders headers) w1 = (Returned tt, w') /\
    JSON_parse payload = Returned parsed /\
    event = toCamelCase parsed.
Proof.
  destruct (secret_cases env) as [Hmissing | [secret [Henv Hsecret]]].
  - rewrite verify_without_secret by exact Hmissing. discriminate.
  - rewrite (verify_with_secret env payload headers secret w) by assumption.
    destruct (Webhook_new secret w) as [[svix|cause] w1] eqn:Hnew; [|discriminate].
    destruct (Webhook_authenticate svix payload (svixHeaders headers) w1)
      as [[[]|cause] w2] eqn:Hauth; [|discriminate].
    destruct (JSON_parse payload) as [parsed|cause] eqn:Hparse; [|discriminate].
    intros [= <- <-]. exists secret, svix, w1, parsed. auto 10.
Qed.

(** X12: [verifySvixSignature] returns an event only for a request the
    library's checks accepted under the configured secret, and the event
    is the parsed payload converted by [toCamelCase]; a rejected request
    never yields an event. *)
Theorem verify_sound env payload headers w event w' :
  verifySvixSignature env payload headers w = (Returned event, w') ->
  exists secret svix w1 parsed,
    env !! secret_variable = Some secret /\ secret <> EmptyString /\
    Webhook_new secret w = (Returned svix, w1) /\
    Webhook_authenticate svix payload (svixHeaders headers) w1 = (Returned tt, w') /\
    JSON_parse payload = Returned parsed /\
    event = toCamelCase parsed.
Proof. apply verify_returned. Qed.

(** X13: the call throws one of three things only: the error of the
    missing secret, what the library's constructor threw, or the error
    ["Invalid webhook signature"]. *)
Theorem verify_errors env payload headers w e w' :
  verifySvixSignature env payload headers w = (Threw e, w') ->
  e = Error "Missing signing secret" \/
  (exists secret, env !! secret_variable = Some secret /\ Webhook_new secret w = (Threw e, w')) \/
  e = Error "Invalid webhook signature".
Proof.
  destruct (secret_cases env) as [Hmissing | [secret [Henv Hsecret]]].
  - rewrite verify_without_secret by exact Hmissing. intros [= <- <-]. auto.
  - rewrite (verify_with_secret env payload headers secret w) by assumption.
    destruct (Webhook_new secret w) as [[svix|cause] w1] eqn:Hnew.
    + destruct (Webhook_authenticate svix payload (svixHeaders headers) w1) as [[[]|cause] w2];
        [destruct (JSON_parse payload)|]; intros [= <- <-] || discriminate; auto.
    + intros [= <- <-]. right. left. exists secret. auto.
Qed.

(** X14: what the constructor [new Webhook(secret)] throws reaches the
    caller as it is: the call is made before the [try], so the [catch]
    does not replace it by the invalid-signature error. *)
Theorem constructor_fault_propagates env payload headers secret w cause w1 :
  env !! secret_variable = Some secret -> secret <> EmptyString ->
  Webhook_new secret w = (Threw cause, w1) ->
  verifySvixSignature env payload headers w = (Threw cause, w1).
Proof.
  intros Henv Hsecret Hnew.
  rewrite (verify_with_secret env payload headers secret w) by assumption.
  rewrite Hnew. reflexivity.
Qed.

(** X15: only the headers [svix-id], [svix-timestamp] and
    [svix-signature] are read: setting any other header of the request
    leaves the call as it was. *)
Theorem other_headers_ignored env payload headers name (h : header_value) w :
  name <> "svix-id" -> name <> "svix-timestamp" -> name <> "svix-signature" ->
  verifySvixSignature env payload (<[name := h]> headers) w
  = verifySvixSignature env payload headers w.
Proof.
  intros Hid Htimestamp Hsignature.
  assert (Hsame : svixHeaders (<[name := h]> headers) = svixHeaders headers).
  { unfold svixHeaders. rewrite !lookup_insert_ne by assumption. reflexivity. }
  unfold verifySvixSignature. rewrite Hsame. reflexivity.
Qed.

(** X16: every event the call returns is an object value (each mapping
    has each key once) none of whose keys has an underscore directly
    followed by a character of [a-z]. *)
Theorem verified_event_shape env payload headers w event w' :
  verifySvixSignature env payload headers w = (Returned event, w') ->
  well_formed event = true /\ all_keys no_separator_match event = true.
Proof.
  intros Hreturned.
  destruct (verify_returned env payload headers w event w' Hreturned)
    as (secret & svix & w1 & parsed & _ & _ & _ & _ & _ & ->).
  rewrite toCamelCase_convert. split.
  - apply convert_keys_well_formed.
  - apply convert_keys_image, camelKey_no_match.
Qed.
End Verification.

Lemma verify_sound_witness :
  exists secret svix w1 parsed,
    Fixtures.env !! secret_variable = Some secret /\ secret <> EmptyString /\
    Webhook_new (SvixLibrary := Fixtures.svix) secret [] = (Returned svix, w1) /\
    Webhook_authenticate (SvixLibrary := Fixtures.svix) svix Fixtures.payload_cancel
      (svixHeaders (Fixtures.signed_headers Fixtures.secret Fixtures.payload_cancel)) w1
    = (Returned tt, []) /\
    JSON_parse (SvixLibrary := Fixtures.svix) Fixtures.payload_cancel = Returned parsed /\
    Fixtures.cancel_event = toCamelCase parsed.
Proof.
  apply (verify_sound (Svix := Fixtures.svix) Fixtures.env Fixtures.payload_cancel
           (Fixtures.signed_headers Fixtures.secret Fixtures.payload_cancel) []
           Fixtures.cancel_event []).
  vm_compute. reflexivity.
Defined.

Lemma verify_errors_witness :
  let e : thrown Z := Error "Invalid webhook signature" in
  e = Error "Missing signing secret" \/
  (exists secret,
      Fixtures.env !! secret_variable = Some secret /\
      Webhook_new (SvixLibrary := Fixtures.svix) secret [] = (Threw e, [])) \/
  e = Error "Invalid webhook signature".
Proof.
  apply (verify_errors (Svix := Fixtures.svix) Fixtures.env Fixtures.payload_cancel
           (Fixtures.signed_headers "whsec_other" Fixtures.payload_cancel) []).
  vm_compute. reflexivity.
Defined.

Lemma constructor_fault_propagates_witness :
  verifySvixSignature (Svix := ResourceFixtures.strict_svix)
    {[ secret_variable := "secret" ]} Fixtures.payload_cancel
    (Fixtures.signed_headers "secret" Fixtures.payload_cancel) []
  = (Threw (LibraryError "Error" "Base64Coder: incorrect characters for decoding"), []).
Proof.
  apply (constructor_fault_propagates (Svix := ResourceFixtures.strict_svix)
           {[ secret_variable := "secret" ]} Fixtures.payload_cancel
           (Fixtures.signed_headers "secret" Fixtures.payload_cancel) "secret" []);
    solve [vm_compute; reflexivity | discriminate].
Defined.

Lemma other_headers_ignored_witness :
  verifySvixSignature (Svix := Fixtures.svix) Fixtures.env Fixtures.payload_cancel
    (<["content-type" := Single "application/json"]>
       (Fixtures.signed_headers Fixtures.secret Fixtures.payload_cancel)) []
  = verifySvixSignature (Svix := Fixtures.svix) Fixtures.env Fixtures.payload_cancel
      (Fixtures.signed_headers Fixtures.secret Fixtures.payload_cancel) [].
Proof.
  apply (other_headers_ignored (Svix := Fixtures.svix) Fixtures.env Fixtures.payload_cancel
           (Fixtures.signed_headers Fixtures.secret Fixtures.payload_cancel)
           "content-type" (Single "application/json") []); discriminate.
Defined.

Lemma verified_event_shape_witness :
  well_formed Fixtures.cancel_event = true /\
  all_keys no_separator_match Fixtures.cancel_event = true.
Proof.
  apply (verified_event_shape (Svix := Fixtures.svix) Fixtures.env Fixtures.payload_cancel
           (Fixtures.signed_headers Fixtures.secret Fixtures.payload_cancel) []
           Fixtures.cancel_event []).
  vm_compute. reflexivity.
Defined.

End VerifierExtras.

(** ** The resource operations *)

Module ResourceExtras.
Import Json Runtime Scalars Resources.

Section Operations.
Context {number World : Type} `{Numbers : NumberOps number} `{Client : HttpClient number World}.
Implicit Types (error : caught number) (w : World) (e : thrown number).
Implicit Types (call : Call (number := number)).

Lemma or_else_truthy (a b : value number) : truthy b = true -> truthy (or_else a b) = true.
Proof. intros Hb. unfold or_else. destruct (truthy a) eqn:Ha; assumption. Qed.

Lemma handleAxiosError_message error :
  exists m, field (handleAxiosError error) "message" = Some m /\ truthy m = true.
Proof.
  destruct error as [message [response|]|e]; simpl.
  - destruct (truthy (data response)); eexists; (split; [reflexivity|]);
      apply or_else_truthy; reflexivity.
  - eexists. split; [reflexivity|]. apply or_else_truthy. reflexivity.
  - eexists. split; reflexivity.
Qed.

Lemma handleAxiosError_status error : field (handleAxiosError error) "status" = Some (VStr "error").
Proof.
  destruct error as [message [response|]|e]; simpl; [destruct (truthy (data response))| |];
    reflexivity.
Qed.

Lemma try_handleAxiosError_threw {A} (body : Attempt A) w e w' :
  try_handleAxiosError body w = (Threw e, w') ->
  exists error, e = ThrownValue (handleAxiosError error).
Proof.
  unfold try_handleAxiosError. destruct (body w) as [[error|a] w1]; [|discriminate].
  intros [= <- _]. eauto.
Qed.

Lemma try_on_response_returns {A} request (k : AxiosResponse number -> A) w response w' :
  request w = (inr response, w') ->
  try_handleAxiosError (on_response request (fun response => inr (k response))) w
  = (Returned (k response), w').
Proof. intros H. unfold try_handleAxiosError, on_response. rewrite H. reflexivity. Qed.

(** X17: whatever is caught, [handleAxiosError] returns an object whose
    [status] is ['error'] and whose [message] is truthy, so never empty
    and never [undefined]. *)
Theorem error_response_shape error :
  field (handleAxiosError error) "status" = Some (VStr "error") /\
  exists m, field (handleAxiosError error) "message" = Some m /\ truthy m = true.
Proof. split; [apply handleAxiosError_status | apply handleAxiosError_message]. Qed.

(** X18: the [ErrorResponse] has an [errors] property exactly when the
    caught error is an Axios error with a response whose body is truthy,
    and then the property is truthy: a body without [errors] gives the
    empty object. *)
Theorem error_response_errors error :
  ((exists x, field (handleAxiosError error) "errors" = Some x) <->
   (exists message response,
       error = AxiosError message (Some response) /\ truthy (data response) = true)) /\
  (forall x, field (handleAxiosError error) "errors" = Some x -> truthy x = true).
Proof.
  destruct error as [message [response|]|e]; simpl.
  - destruct (truthy (data response)) eqn:Hdata; simpl; split.
    + split; [eauto | eauto].
    + intros x [= <-]. apply or_else_truthy. reflexivity.
    + split; [intros [x Hx]; discriminate|].
      intros (m & r & [= _ <-] & Hr). congruence.
    + discriminate.
  - split; [|discriminate].
    split; [intros [x Hx]; discriminate | intros (m & r & H & _); discriminate].
  - split; [|discriminate].
    split; [intros [x Hx]; discriminate | intros (m & r & H & _); discriminate].
Qed.

(** X19: whatever an operation of [recurrente] throws is an
    [ErrorResponse] object made by [handleAxiosError], with [status]
    ['error'] and a truthy [message]; no error of the transport reaches
    the caller as it was. *)
Theorem rejections_are_normalised call w e w' :
  recurrente call w = (Threw e, w') ->
  exists r,
    e = ThrownValue r /\
    field r "status" = Some (VStr "error") /\
    exists m, field r "message" = Some m /\ truthy m = true.
Proof.
  intros Hthrew.
  assert (Herror : exists error, e = ThrownValue (handleAxiosError error)).
  { destruct call; simpl in Hthrew;
      unfold test, createProduct, getProduct, getAllProducts, updateProduct, deleteProduct,
        createSubscription, cancelSubscription, getSubscription in Hthrew;
      eapply try_handleAxiosError_threw; exact Hthrew. }
  destruct Herror as [error ->].
  exists (handleAxiosError error).
  split; [reflexivity|]. split; [apply handleAxiosError_status | apply handleAxiosError_message].
Qed.

(** X20: an operation other than [test] resolves whenever the transport
    answers, whatever the response carries: the body and the status are
    not examined. *)
Theorem responses_resolve call w :
  always_responds -> call <> Test -> returns_normally (recurrente call w).
Proof.
  intros (Hget & Hpost & Hpatch & Hdelete) Hcall. unfold returns_normally.
  destruct call; [contradiction|..]; simpl;
    unfold createProduct, getProduct, getAllProducts, updateProduct, deleteProduct,
      createSubscription, cancelSubscription, getSubscription;
    lazymatch goal with
    | |- context [client_get ?url] => destruct (Hget url w) as (response & w' & H)
    | |- context [client_post ?url ?body] => destruct (Hpost url body w) as (response & w' & H)
    | |- context [client_patch ?url ?body] => destruct (Hpatch url body w) as (response & w' & H)
    | |- context [client_delete ?url] => destruct (Hdelete url w) as (response & w' & H)
    end;
    erewrite try_on_response_returns by exact H; eauto.
Qed.

(** X21: [test] rejects a response whose body is [null] or [undefined],
    although the transport answered: reading [message] of the body throws
    inside the [try], and the caller gets the error of the unknown
    cause. *)
Theorem test_rejects_empty_body w response w' :
  client_get "/test" w = (inr response, w') ->
  data response = VNull \/ data response = VUndefined ->
  test w
  = (Threw (ThrownValue
              (VObj [("status", VStr "error"); ("message", VStr "An unknown error occurred")])),
     w').
Proof.
  intros Hget Hbody. unfold test, try_handleAxiosError, on_response. rewrite Hget.
  destruct Hbody as [-> | ->]; reflexivity.
Qed.
End Operations.

Import ResourceFixtures.

Lemma error_response_errors_witness :
  truthy (VObj [] : value Z) = true /\
  field (handleAxiosError (AxiosError "Request failed with status code 404"
                             (Some ResourceFixtures.not_found))) "errors"
  = Some (VObj []).
Proof.
  split.
  - apply (proj2 (error_response_errors
                    (AxiosError "Request failed with status code 404"
                       (Some ResourceFixtures.not_found))) (VObj [])).
    reflexivity.
  - reflexivity.
Defined.

Lemma rejections_are_normalised_witness :
  exists r,
    ThrownValue (VObj [("status", VStr "error"); ("message", VStr "Network Error")])
    = ThrownValue r /\
    field r "status" = Some (VStr "error") /\
    exists m : value Z, field r "message" = Some m /\ truthy m = true.
Proof.
  apply (rejections_are_normalised
           (Client := ResourceFixtures.rejects (AxiosError "Network Error" None))
           (GetProduct "prod_1") [] _ [("GET", "/products/prod_1")]).
  vm_compute. reflexivity.
Defined.

Lemma responses_resolve_witness :
  returns_normally
    (recurrente (Client := ResourceFixtures.answers ResourceFixtures.created)
       (CreateProduct Fixtures.product) []).
Proof.
  apply (responses_resolve (Client := ResourceFixtures.answers ResourceFixtures.created)).
  - repeat split; intros; eexists _, _; reflexivity.
  - discriminate.
Defined.

Lemma test_rejects_empty_body_witness :
  test (Client := ResourceFixtures.answers VNull) []
  = (Threw (ThrownValue
              (VObj [("status", VStr "error"); ("message", VStr "An unknown error occurred")])),
     [("GET", "/test")]).
Proof.
  apply (test_rejects_empty_body (Client := ResourceFixtures.answers VNull) []
           {| status := 200%Z; data := VNull |}).
  - reflexivity.
  - left. reflexivity.
Defined.

Example createProduct_converts :
  createProduct (Client := ResourceFixtures.answers ResourceFixtures.created) Fixtures.product []
  = (Returned (VObj [("id", VStr "prod_1"); ("checkoutUrl", VStr "https://example.com/c/1")]),
     [("POST", "/products/")]).
Proof. vm_compute. reflexivity. Qed.

Example getAllProducts_default_page :
  snd (getAllProducts (Client := ResourceFixtures.answers (VArr [])) None [])
  = [("GET", "/products?page=1")].
Proof. vm_compute. reflexivity. Qed.

Example cancelSubscription_message :
  fst (cancelSubscription (Client := ResourceFixtures.answers VNull) "sub_1" [])
  = Returned (VObj [("message", VStr "Subscription canceled successfully. Status: 200")]).
Proof. vm_compute. reflexivity. Qed.

Example getProduct_not_found :
  fst (getProduct
         (Client := ResourceFixtures.rejects
                      (AxiosError "Request failed with status code 404"
                         (Some ResourceFixtures.not_found)))
         "prod_9" [])
  = Threw (ThrownValue
             (VObj [("status", VStr "error"); ("message", VStr "Not found");
                    ("errors", VObj [])])).
Proof. vm_compute. reflexivity. Qed.

Section Requests.
Context {number : Type} `{Numbers : NumberOps number}.
Variable answer : Recording.Request number -> caught number + AxiosResponse number.
Implicit Types (log : list (Recording.Request number)) (request : Recording.Request number).

Abbreviation run := (recurrente (Client := Recording.recording answer)).

Lemma recorded_request {A} (call : list (Recording.Request number) ->
                                   (caught number + AxiosResponse number) * _)
    (k : AxiosResponse number -> caught number + A) log request :
  (forall w, snd (call w) = w ++ [request]) ->
  snd (try_handleAxiosError (on_response call k) log) = log ++ [request].
Proof.
  intros Hcall. unfold try_handleAxiosError, on_response.
  specialize (Hcall log). destruct (call log) as [[error|response] w']; simpl in *.
  - exact Hcall.
  - destruct (k response); exact Hcall.
Qed.

(** The request each call makes, as the log shows it. *)
Lemma call_request call log :
  exists request,
    snd (run call log) = log ++ [request] /\
    match Recording.body request with
    | Some data => exists productData, data = toSnakeCase productData
    | None => True
    end.
Proof.
  destruct call; simpl;
    unfold test, createProduct, getProduct, getAllProducts, updateProduct, deleteProduct,
      createSubscription, cancelSubscription, getSubscription;
    eexists; (split; [apply recorded_request; intros w; reflexivity|]); simpl; eauto.
Qed.

(** X24: every call of an operation makes exactly one request to the
    transport, whether the transport answers or rejects: nothing is
    retried and nothing else is sent. *)
Theorem one_request_per_call call log :
  exists request,
    snd (recurrente (Client := Recording.recording answer) call log) = log ++ [request].
Proof. destruct (call_request call log) as [request [Hlog _]]. eauto. Qed.

(** X25: a body an operation sends is an object value none of whose keys
    has a character of [A-Z], whatever the caller's data is. *)
Theorem request_bodies_are_snake_case call log request data :
  snd (recurrente (Client := Recording.recording answer) call log) = log ++ [request] ->
  Recording.body request = Some data ->
  well_formed data = true /\ all_keys KeyShapes.no_upper data = true.
Proof.
  intros Hlog Hbody.
  destruct (call_request call log) as [request' [Hlog' Hrequest]].
  rewrite Hlog in Hlog'. apply app_inj_tail in Hlog' as [_ <-].
  rewrite Hbody in Hrequest. destruct Hrequest as [productData ->]. split.
  - apply ConverterFacts.toSnakeCase_well_formed.
  - apply ConverterFacts.toSnakeCase_image, KeyShapeFacts.snakeKey_no_upper.
Qed.
End Requests.

Lemma request_bodies_are_snake_case_witness :
  well_formed (toSnakeCase Fixtures.product) = true /\
  all_keys KeyShapes.no_upper (toSnakeCase Fixtures.product) = true.
Proof.
  apply (request_bodies_are_snake_case
           (fun _ => inr {| status := 201%Z; data := ResourceFixtures.created |})
           (UpdateProduct "prod_1" Fixtures.product) []
           {| Recording.method := "PATCH"; Recording.url := "/products/prod_1";
              Recording.body := Some (toSnakeCase Fixtures.product) |}
           (toSnakeCase Fixtures.product)); reflexivity.
Defined.

End ResourceExtras.

(** ** The transport's configuration *)

Module ConfigExtras.
Import Runtime Config.

Section Settings.
Context {number : Type}.
Implicit Types (env : gmap string string).

Abbreviation base env := (env !! "RECURRENTE_BASE_URL").
Abbreviation public_key env := (env !! "RECURRENTE_PUBLIC_KEY").
Abbreviation secret_key env := (env !! "RECURRENTE_SECRET_KEY").

Ltac by_settings env :=
  unfold axiosInstance;
  destruct (env !! "RECURRENTE_BASE_URL") as [[|? ?]|];
  destruct (env !! "RECURRENTE_PUBLIC_KEY") as [[|? ?]|];
  destruct (env !! "RECURRENTE_SECRET_KEY") as [[|? ?]|];
  simpl.

(** X22: the transport module loads exactly when the base URL, the
    public key and the secret key are all set and not empty. *)
Theorem axiosInstance_loads_iff env :
  (exists config, axiosInstance (number := number) env = Returned config) <->
  missing (base env) = false /\ missing (public_key env) = false /\
  missing (secret_key env) = false.
Proof.
  by_settings env; split;
    solve [ intros [config H]; discriminate H
          | intros (H1 & H2 & H3); discriminate
          | intros _; auto
          | intros _; eexists; reflexivity ].
Qed.

(** X23: when a setting is missing, the error names the first missing
    one in the order base URL, public key, secret key. *)
Theorem axiosInstance_first_missing env :
  (axiosInstance (number := number) env = Threw (Error "Missing Recurrente base URL") <->
   missing (base env) = true) /\
  (axiosInstance (number := number) env = Threw (Error "Missing Recurrente Public Key") <->
   missing (base env) = false /\ missing (public_key env) = true) /\
  (axiosInstance (number := number) env = Threw (Error "Missing Recurrente Secret Key") <->
   missing (base env) = false /\ missing (public_key env) = false /\
   missing (secret_key env) = true).
Proof.
  by_settings env; repeat split; intros; try discriminate; try tauto;
    repeat match goal with H : _ /\ _ |- _ => destruct H end; discriminate.
Qed.
End Settings.

Example axiosInstance_complete :
  axiosInstance (number := Z) ResourceFixtures.complete_env
  = Returned {| baseURL := "https://app.recurrente.com/api";
                headers := [("X-PUBLIC-KEY", "pk_1"); ("X-SECRET-KEY", "sk_1");
                            ("Content-Type", "application/json")] |}.
Proof. vm_compute. reflexivity. Qed.

Example axiosInstance_without_public_key :
  axiosInstance (number := Z) (delete "RECURRENTE_PUBLIC_KEY" ResourceFixtures.complete_env)
  = Threw (Error "Missing Recurrente Public Key").
Proof. vm_compute. reflexivity. Qed.

End ConfigExtras.
